(** * bed_to_tabix: the command-line front end (src/bed_to_tabix/cli.py)

    A shallow embedding of [parse_arguments] and [main].  Python strings
    are modelled as [string] (sequences of 8-bit characters), the argument
    mapping built by docopt as a [gmap string value], and the effects of
    the script (dictionary mutation, printing, logging, raising) as a state
    and exception monad over the dictionary and an output trace. *)

From Stdlib Require Import ZArith String Ascii DecimalString.
From stdpp Require Import gmap strings.

Local Open Scope Z_scope.

(** ** Python string primitives used by the script *)

Module Str.

(** [s.startswith(pre)] *)
Definition startswith (s pre : string) : bool := String.prefix pre s.

(** [s.endswith(suf)]: some suffix of [s] is [suf]. *)
Fixpoint endswith (s suf : string) : bool :=
  if String.eqb s suf then true
  else match s with
       | EmptyString => false
       | String _ s' => endswith s' suf
       end.

(** Characters inserted between and around by [s.replace('', new)]. *)
Fixpoint interleave (new s : string) : string :=
  match s with
  | EmptyString => EmptyString
  | String c s' => String c (new +:+ interleave new s')
  end.

(** The left-to-right scan of [str.replace]: [skip] counts the characters
    of a match that are still to be dropped. *)
Fixpoint replace_scan (old new : string) (skip : nat) (s : string) : string :=
  match s with
  | EmptyString => EmptyString
  | String c s' =>
      match skip with
      | S k => replace_scan old new k s'
      | O =>
          if String.prefix old s
          then new +:+ replace_scan old new (Nat.pred (String.length old)) s'
          else String c (replace_scan old new O s')
      end
  end.

(** [s.replace(old, new)] *)
Definition replace (old new s : string) : string :=
  match old with
  | EmptyString => new +:+ interleave new s
  | _ => replace_scan old new O s
  end.

(** ['a' <= c <= 'z'] mapped to upper case, other characters unchanged. *)
Definition upper_char (c : ascii) : ascii :=
  let n := nat_of_ascii c in
  if ((97 <=? n) && (n <=? 122))%nat then ascii_of_nat (n - 32) else c.

(** [s.upper()] *)
Fixpoint upper (s : string) : string :=
  match s with
  | EmptyString => EmptyString
  | String c s' => String (upper_char c) (upper s')
  end.

(** [sep.join(parts)] *)
Definition join (sep : string) (parts : list string) : string :=
  String.concat sep parts.

(** The characters of a string, as Python iterates over it. *)
Fixpoint chars (s : string) : list string :=
  match s with
  | EmptyString => []
  | String c s' => String c EmptyString :: chars s'
  end.

(** Decimal rendering of an integer, as [str.format] does. *)
Definition of_Z (z : Z) : string := NilZero.string_of_int (Z.to_int z).

Definition newline : string := String (ascii_of_nat 10) EmptyString.

End Str.

(** ** os.path *)

Module Path.

Definition sep : ascii := "/"%char.

Fixpoint has_sep (p : string) : bool :=
  match p with
  | EmptyString => false
  | String c p' => if Ascii.eqb c sep then true else has_sep p'
  end.

(** [os.path.basename(p)]: what follows the last separator. *)
Fixpoint basename (p : string) : string :=
  match p with
  | EmptyString => EmptyString
  | String _ p' => if has_sep p then basename p' else p
  end.

(** [os.path.join(a, b)] *)
Definition join (a b : string) : string :=
  if Str.startswith b "/" then b
  else if String.eqb a "" || Str.endswith a "/" then a +:+ b
  else a +:+ "/" +:+ b.

End Path.

(** ** int(...) on a string *)

Module PyInt.

Definition is_space (c : ascii) : bool :=
  let n := nat_of_ascii c in
  ((9 <=? n) && (n <=? 13) || (28 <=? n) && (n <=? 32))%nat.

Definition is_digit (c : ascii) : bool :=
  let n := nat_of_ascii c in ((48 <=? n) && (n <=? 57))%nat.

Definition digit (c : ascii) : Z := Z.of_nat (nat_of_ascii c) - 48.

Fixpoint lstrip (s : string) : string :=
  match s with
  | EmptyString => EmptyString
  | String c s' => if is_space c then lstrip s' else s
  end.

Fixpoint rstrip (s : string) : string :=
  match s with
  | EmptyString => EmptyString
  | String c s' =>
      let r := rstrip s' in
      if is_space c && String.eqb r "" then EmptyString else String c r
  end.

(** Digits with single underscores between them. *)
Fixpoint digits (acc : Z) (after_digit : bool) (s : string) : option Z :=
  match s with
  | EmptyString => if after_digit then Some acc else None
  | String c s' =>
      if is_digit c then digits (10 * acc + digit c) true s'
      else if Ascii.eqb c "_"
           then (if after_digit then digits acc false s' else None)
           else None
  end.

(** [int(s)] for a string: [None] stands for ValueError. *)
Definition parse (s : string) : option Z :=
  match lstrip (rstrip s) with
  | String "-" s' => Z.opp <$> digits 0 false s'
  | String "+" s' => digits 0 false s'
  | s' => digits 0 false s'
  end.

End PyInt.


(** ** Values, exceptions and the effect monad *)

(** The values docopt stores in the argument mapping, and the integer
    [parse_arguments] writes back for the thread count. *)
Inductive value :=
| VNone
| VBool (b : bool)
| VInt (n : Z)
| VStr (s : string)
| VList (l : list string).

(** Python truth value. *)
Definition truthy (v : value) : bool :=
  match v with
  | VNone => false
  | VBool b => b
  | VInt n => negb (Z.eqb n 0)
  | VStr s => negb (String.eqb s "")
  | VList l => match l with [] => false | _ => true end
  end.

(** [sys.exit(code)] raises SystemExit; [sys.exit()] carries no code. *)
Inductive exn :=
| SystemExit (code : option Z)
| KeyError (key : string)
| ValueError
| TypeError
| AttributeError
| KeyboardInterrupt
| CalledProcessError (returncode : Z) (cmd : string)
| OtherError (name : string).

(** The status the interpreter hands to the operating system. *)
Definition exit_status (e : option exn) : Z :=
  match e with
  | None => 0
  | Some (SystemExit None) => 0
  | Some (SystemExit (Some n)) => n
  | Some _ => 1
  end.

(** The keyword arguments of the one call to [run_pipeline]. *)
Record pipeline_call := {
  bedfiles : value;
  threads : value;
  outfile : value;
  gzip_output : bool;
  dry_run : value;
  path_to_bcftools : value;
  path_to_java : value;
  path_to_tabix : value;
  path_to_gatk3 : value;
  path_to_bgzip : value;
  path_to_reference_fasta : value
}.

(** What the program does to the outside, in order. *)
Inductive event :=
| Print (text : string)
| LogWarning (text : string)
| LogInfo (text : string)
| InstallLogs (level : string)
| RunPipeline (call : pipeline_call)
| CleanupTempFiles.

(** The dictionary [arguments] (one shared object, mutated in place) and
    the output so far. *)
Record state := {
  arguments : gmap string value;
  trace : list event
}.

Inductive result (A : Type) :=
| Ok (a : A) (s : state)
| Raise (e : exn) (s : state).
Arguments Ok {A} a s.
Arguments Raise {A} e s.

Definition M (A : Type) : Type := state -> result A.

Definition ret {A} (a : A) : M A := fun s => Ok a s.

Definition bind {A B} (m : M A) (k : A -> M B) : M B :=
  fun s => match m s with
           | Ok a s' => k a s'
           | Raise e s' => Raise e s'
           end.

Notation "x <- m ;; k" := (bind m (fun x => k))
  (at level 100, m at next level, right associativity).
Notation "m ;; k" := (bind m (fun _ => k))
  (at level 100, right associativity).

Definition raise {A} (e : exn) : M A := fun s => Raise e s.

(** The state after one more event, and after one assignment. *)
Definition log (ev : event) (s : state) : state :=
  {| arguments := arguments s; trace := trace s ++ [ev] |}.

Definition set_arg (k : string) (v : value) (s : state) : state :=
  {| arguments := <[k := v]> (arguments s); trace := trace s |}.

Definition emit (ev : event) : M unit := fun s => Ok tt (log ev s).

(** [arguments[k]] *)
Definition getitem (k : string) : M value :=
  fun s => match arguments s !! k with
           | Some v => Ok v s
           | None => Raise (KeyError k) s
           end.

(** [arguments[k] = v] *)
Definition setitem (k : string) (v : value) : M unit :=
  fun s => Ok tt (set_arg k v s).

(** [k in arguments] *)
Definition contains (k : string) : M bool :=
  fun s => Ok (bool_decide (is_Some (arguments s !! k))) s.

(** The dictionary itself, as [return arguments] hands it back. *)
Definition get_arguments : M (gmap string value) :=
  fun s => Ok (arguments s) s.

(** [sys.exit()] *)
Definition sys_exit {A} : M A := raise (SystemExit None).

(** [for x in l: body(x)] *)
Fixpoint for_each {A} (l : list A) (body : A -> M unit) : M unit :=
  match l with
  | [] => ret tt
  | x :: l' => body x ;; for_each l' body
  end.

(** [try: body  except <those the handler accepts>: handler] *)
Definition try_except {A} (body : M A) (handler : exn -> option (M A)) : M A :=
  fun s => match body s with
           | Ok a s' => Ok a s'
           | Raise e s' =>
               match handler e with
               | Some h => h s'
               | None => Raise e s'
               end
           end.

(** [try: body  finally: fin]: [fin] runs whatever [body] did; what [body]
    returned or raised stands unless [fin] raises itself. *)
Definition try_finally {A} (body : M A) (fin : M unit) : M A :=
  fun s => match body s with
           | Ok a s' =>
               match fin s' with
               | Ok _ s'' => Ok a s''
               | Raise e s'' => Raise e s''
               end
           | Raise e s' =>
               match fin s' with
               | Ok _ s'' => Raise e s''
               | Raise e' s'' => Raise e' s''
               end
           end.

(** ** The process environment *)

Record os := {
  environ : gmap string string;
  getcwd : string;
  isfile : string -> bool
}.

(** The dictionary PACKAGE_INFO of the module package_info, which the
    version message is formatted from. *)
Record package_info := {
  PROGRAM_NAME : string;
  VERSION : string;
  DATE : string;
  AUTHOR : string;
  URL : string
}.

(** ** parse_arguments *)

(** [defaults = {'--threads': 6}] *)
Definition defaults : gmap string value := {[ "--threads" := VInt 6 ]}.

(** [int(v)] *)
Definition py_int (v : value) : M value :=
  match v with
  | VStr s => match PyInt.parse s with
              | Some n => ret (VInt n)
              | None => raise ValueError
              end
  | VInt n => ret (VInt n)
  | VBool b => ret (VInt (if b then 1 else 0))
  | VNone | VList _ => raise TypeError
  end.

(** The elements a [for] clause draws from a value. *)
Definition iterate (v : value) : M (list string) :=
  match v with
  | VList l => ret l
  | VStr s => ret (Str.chars s)
  | _ => raise TypeError
  end.

(** [v.endswith(suf)] *)
Definition endswith (v : value) (suf : string) : M bool :=
  match v with
  | VStr s => ret (Str.endswith s suf)
  | _ => raise AttributeError
  end.

(** [v + suf] for a string [suf] *)
Definition add_str (v : value) (suf : string) : M value :=
  match v with
  | VStr s => ret (VStr (s +:+ suf))
  | _ => raise TypeError
  end.

(** [isfile(v)] *)
Definition is_file (o : os) (v : value) : M bool :=
  match v with
  | VStr s => ret (isfile o s)
  | _ => raise TypeError
  end.

(** Lines 86-89. *)
Definition version_message (pkg : package_info) : string :=
  PROGRAM_NAME pkg +:+ " " +:+ VERSION pkg +:+ " (" +:+ DATE pkg +:+ ") by "
    +:+ AUTHOR pkg +:+ Str.newline +:+ "Check: " +:+ URL pkg.

Definition check_version (pkg : package_info) : M unit :=
  v <- getitem "--version" ;;
  if truthy v
  then emit (Print (version_message pkg)) ;; sys_exit
  else ret tt.

(** Lines 91-94. *)
Definition set_threads : M unit :=
  v <- getitem "--threads" ;;
  if truthy v
  then (v' <- getitem "--threads" ;; n <- py_int v' ;; setitem "--threads" n)
  else match defaults !! "--threads" with
       | Some d => setitem "--threads" d
       | None => raise (KeyError "--threads")
       end.

(** Lines 96-99. *)
Definition derived_filename (beds : list string) : string :=
  Str.join "__" (map (fun bed => Str.replace ".bed" "" (Path.basename bed)) beds).

Definition default_out (o : os) : M unit :=
  v <- getitem "--out" ;;
  if negb (truthy v)
  then (ins <- getitem "--in" ;;
        beds <- iterate ins ;;
        setitem "--out" (VStr (Path.join (getcwd o) (derived_filename beds))))
  else ret tt.

(** Lines 101-105. *)
Definition add_suffixes : M unit :=
  v <- getitem "--out" ;;
  b <- endswith v ".vcf" ;;
  (if negb b
   then (v' <- getitem "--out" ;; w <- add_str v' ".vcf" ;; setitem "--out" w)
   else ret tt) ;;
  u <- getitem "--unzipped" ;;
  if negb (truthy u)
  then (v' <- getitem "--out" ;; w <- add_str v' ".gz" ;; setitem "--out" w)
  else ret tt.

(** Lines 107-119. *)
Definition varnames : list string :=
  ["bcftools"; "tabix"; "bgzip"; "gatk3"; "java"; "reference_fasta"].

Definition parameter_of (varname : string) : string :=
  "--" +:+ Str.replace "_" "-" ("path_to_" +:+ varname).

Definition env_varname_of (varname : string) : string :=
  Str.upper ("path_to_" +:+ varname).

Definition missing_message (parameter env_varname : string) : string :=
  ("Missing either " +:+ parameter +:+ " ") +:+ ("or ENV variable " +:+ env_varname).

Definition resolve_tool (o : os) (varname : string) : M unit :=
  let parameter := parameter_of varname in
  let env_varname := env_varname_of varname in
  v <- getitem parameter ;;
  if negb (truthy v)
  then match environ o !! env_varname with
       | Some p => setitem parameter (VStr p)
       | None => emit (Print (missing_message parameter env_varname)) ;; sys_exit
       end
  else ret tt.

Definition resolve_tools (o : os) : M unit :=
  for_each varnames (resolve_tool o).

(** Lines 121-125. *)
Definition exists_message (out : string) : string :=
  "Output file " +:+ out +:+ " already exists!" +:+ Str.newline
    +:+ "Use --force or -f to overwrite "
    +:+ "it or change the output filename with --out.".

Definition render (v : value) : string :=
  match v with VStr s => s | _ => "" end.

Definition overwrite_guard (o : os) : M unit :=
  present <- contains "--force" ;;
  if negb present
  then (v <- getitem "--out" ;;
        there <- is_file o v ;;
        if there
        then (v' <- getitem "--out" ;;
              emit (LogWarning (exists_message (render v'))) ;; sys_exit)
        else ret tt)
  else ret tt.

(** Lines 86-105: version, thread count and output path. *)
Definition prepare (pkg : package_info) (o : os) : M unit :=
  check_version pkg ;;
  set_threads ;;
  default_out o ;;
  add_suffixes.

(** Lines 85-127. *)
Definition parse_arguments (pkg : package_info) (o : os) : M (gmap string value) :=
  prepare pkg o ;;
  resolve_tools o ;;
  overwrite_guard o ;;
  get_arguments.

(** ** main *)

(** [run_pipeline] lives in the module lib; a run either returns or raises. *)
Definition pipeline := pipeline_call -> option exn.

Definition call_run_pipeline (run_pipeline : pipeline) (c : pipeline_call) : M unit :=
  emit (RunPipeline c) ;;
  match run_pipeline c with
  | None => ret tt
  | Some e => raise e
  end.

Definition interrupt_message : string :=
  "User stopped the program. Cleanup and exit.".

Definition failure_message (returncode : Z) (cmd : string) : string :=
  "The following command failed (code: " +:+ Str.of_Z returncode
    +:+ "). Cleanup and exit: " +:+ cmd.

(** Lines 153-159: the two except clauses. *)
Definition handlers (e : exn) : option (M unit) :=
  match e with
  | KeyboardInterrupt =>
      Some (emit (LogWarning interrupt_message) ;; sys_exit)
  | CalledProcessError returncode cmd =>
      Some (emit (LogWarning (failure_message returncode cmd)) ;; sys_exit)
  | _ => None
  end.

(** Lines 160-165: the finally clause. *)
Definition cleanup : M unit :=
  v <- getitem "--no-cleanup" ;;
  if truthy v
  then emit (LogInfo "No cleanup requested, leaving the temp files.")
  else emit (LogInfo "Cleaning up temporary files.") ;; emit CleanupTempFiles.

(** Lines 138-152: the keyword arguments, evaluated in the order written. *)
Definition run (run_pipeline : pipeline) : M unit :=
  a_in <- getitem "--in" ;;
  a_threads <- getitem "--threads" ;;
  a_out <- getitem "--out" ;;
  a_unzipped <- getitem "--unzipped" ;;
  a_dry_run <- getitem "--dry-run" ;;
  a_bcftools <- getitem "--path-to-bcftools" ;;
  a_java <- getitem "--path-to-java" ;;
  a_tabix <- getitem "--path-to-tabix" ;;
  a_gatk3 <- getitem "--path-to-gatk3" ;;
  a_bgzip <- getitem "--path-to-bgzip" ;;
  a_fasta <- getitem "--path-to-reference-fasta" ;;
  call_run_pipeline run_pipeline
    {| bedfiles := a_in;
       threads := a_threads;
       outfile := a_out;
       gzip_output := negb (truthy a_unzipped);
       dry_run := a_dry_run;
       path_to_bcftools := a_bcftools;
       path_to_java := a_java;
       path_to_tabix := a_tabix;
       path_to_gatk3 := a_gatk3;
       path_to_bgzip := a_bgzip;
       path_to_reference_fasta := a_fasta |}.

(** Lines 130-165, from the dictionary docopt returned. *)
Definition main_body (pkg : package_info) (o : os) (run_pipeline : pipeline) : M unit :=
  parse_arguments pkg o ;;
  debug <- getitem "--debug" ;;
  emit (InstallLogs (if truthy debug then "DEBUG" else "INFO")) ;;
  try_finally (try_except (run run_pipeline) handlers) cleanup.

(** The state a run starts in: the dictionary docopt returned, nothing
    written yet. *)
Definition start (docopt_result : gmap string value) : state :=
  {| arguments := docopt_result; trace := [] |}.

Definition main (pkg : package_info) (o : os) (run_pipeline : pipeline)
    (docopt_result : gmap string value) : result unit :=
  main_body pkg o run_pipeline (start docopt_result).

(** Where a computation stopped, and with which exception if any. *)
Definition final {A} (r : result A) : state :=
  match r with Ok _ s | Raise _ s => s end.

Definition raised {A} (r : result A) : option exn :=
  match r with Ok _ _ => None | Raise e _ => Some e end.

(** ** The dictionary docopt builds from the usage text *)

(** What the user wrote on the command line, option by option. *)
Record command_line := {
  cl_in : list string;
  cl_out : option string;
  cl_threads : option string;
  cl_unzipped : bool;
  cl_force : bool;
  cl_dry_run : bool;
  cl_debug : bool;
  cl_no_cleanup : bool;
  cl_path_to_bcftools : option string;
  cl_path_to_tabix : option string;
  cl_path_to_bgzip : option string;
  cl_path_to_java : option string;
  cl_path_to_gatk3 : option string;
  cl_path_to_reference_fasta : option string;
  cl_help : bool;
  cl_version : bool
}.

Definition opt_value (x : option string) : value :=
  match x with Some s => VStr s | None => VNone end.

(** docopt returns one entry per option of the usage text (lines 6-63),
    under its long name, whether or not the option was given: a flag maps
    to a boolean, an option with an argument to its string or None, the
    repeatable [--in] to a list. *)
Definition docopt (c : command_line) : gmap string value :=
  list_to_map
    [ ("--in", VList (cl_in c));
      ("--out", opt_value (cl_out c));
      ("--threads", opt_value (cl_threads c));
      ("--unzipped", VBool (cl_unzipped c));
      ("--force", VBool (cl_force c));
      ("--dry-run", VBool (cl_dry_run c));
      ("--debug", VBool (cl_debug c));
      ("--no-cleanup", VBool (cl_no_cleanup c));
      ("--path-to-bcftools", opt_value (cl_path_to_bcftools c));
      ("--path-to-tabix", opt_value (cl_path_to_tabix c));
      ("--path-to-bgzip", opt_value (cl_path_to_bgzip c));
      ("--path-to-java", opt_value (cl_path_to_java c));
      ("--path-to-gatk3", opt_value (cl_path_to_gatk3 c));
      ("--path-to-reference-fasta", opt_value (cl_path_to_reference_fasta c));
      ("--help", VBool (cl_help c));
      ("--version", VBool (cl_version c)) ].


(** ** A sample invocation, for the examples *)

Module Sample.

Definition pkg : package_info :=
  {| PROGRAM_NAME := "bed_to_tabix"; VERSION := "1.0.0"; DATE := "2017";
     AUTHOR := "biocodices"; URL := "https://github.com/biocodices/bed_to_tabix" |}.

(** Every tool is configured through the environment; [exists_] tells
    whether files exist. *)
Definition os_with (exists_ : bool) : os :=
  {| environ :=
       list_to_map
         [ ("PATH_TO_BCFTOOLS", "/opt/bcftools");
           ("PATH_TO_TABIX", "/opt/tabix");
           ("PATH_TO_BGZIP", "/opt/bgzip");
           ("PATH_TO_GATK3", "/opt/gatk3.jar");
           ("PATH_TO_JAVA", "/usr/bin/java");
           ("PATH_TO_REFERENCE_FASTA", "/data/ref.fasta") ];
     getcwd := "/home/user";
     isfile := fun _ => exists_ |}.

(** Nothing is configured. *)
Definition bare_os : os :=
  {| environ := ∅; getcwd := "/home/user"; isfile := fun _ => false |}.

(** [bed_to_tabix --in a.bed --in b.bed] *)
Definition cl : command_line :=
  {| cl_in := ["a.bed"; "b.bed"];
     cl_out := None;
     cl_threads := None;
     cl_unzipped := false;
     cl_force := false;
     cl_dry_run := false;
     cl_debug := false;
     cl_no_cleanup := false;
     cl_path_to_bcftools := None;
     cl_path_to_tabix := None;
     cl_path_to_bgzip := None;
     cl_path_to_java := None;
     cl_path_to_gatk3 := None;
     cl_path_to_reference_fasta := None;
     cl_help := false;
     cl_version := false |}.

Definition with_in (beds : list string) (c : command_line) : command_line :=
  {| cl_in := beds;
     cl_out := cl_out c;
     cl_threads := cl_threads c;
     cl_unzipped := cl_unzipped c;
     cl_force := cl_force c;
     cl_dry_run := cl_dry_run c;
     cl_debug := cl_debug c;
     cl_no_cleanup := cl_no_cleanup c;
     cl_path_to_bcftools := cl_path_to_bcftools c;
     cl_path_to_tabix := cl_path_to_tabix c;
     cl_path_to_bgzip := cl_path_to_bgzip c;
     cl_path_to_java := cl_path_to_java c;
     cl_path_to_gatk3 := cl_path_to_gatk3 c;
     cl_path_to_reference_fasta := cl_path_to_reference_fasta c;
     cl_help := cl_help c;
     cl_version := cl_version c |}.

(** [bed_to_tabix --version] *)
Definition version_cl : command_line :=
  {| cl_in := [];
     cl_out := None;
     cl_threads := None;
     cl_unzipped := false;
     cl_force := false;
     cl_dry_run := false;
     cl_debug := false;
     cl_no_cleanup := false;
     cl_path_to_bcftools := None;
     cl_path_to_tabix := None;
     cl_path_to_bgzip := None;
     cl_path_to_java := None;
     cl_path_to_gatk3 := None;
     cl_path_to_reference_fasta := None;
     cl_help := false;
     cl_version := true |}.

(** Only bcftools is configured. *)
Definition only_bcftools_os : os :=
  {| environ := {[ "PATH_TO_BCFTOOLS" := "/opt/bcftools" ]};
     getcwd := "/home/user";
     isfile := fun _ => false |}.

(** The mapping of [cl] without its '--force' entry, as a caller other
    than docopt could build it. *)
Definition no_force : gmap string value := delete "--force" (docopt cl).

(** [bed_to_tabix --in a.bed --in b.bed --threads 8] *)
Definition threads8 : gmap string value :=
  <["--threads" := VStr "8"]> (docopt cl).

(** [bed_to_tabix --in a.bed --in b.bed --out x.vcf.gz] *)
Definition out_given : gmap string value :=
  <["--out" := VStr "x.vcf.gz"]> (docopt cl).

(** [bed_to_tabix --in a.bed --in b.bed] with every tool path given as a
    flag. *)
Definition with_tools : gmap string value :=
  <["--path-to-bcftools" := VStr "/tools/bcftools"]>
    (<["--path-to-tabix" := VStr "/tools/tabix"]>
       (<["--path-to-bgzip" := VStr "/tools/bgzip"]>
          (<["--path-to-gatk3" := VStr "/tools/gatk3.jar"]>
             (<["--path-to-java" := VStr "/tools/java"]>
                (<["--path-to-reference-fasta" := VStr "/tools/ref.fasta"]>
                   (docopt cl)))))).

(** A pipeline that stops on an error of its own. *)
Definition breaks : pipeline := fun _ => Some (OtherError "OSError").

(** A pipeline that goes through, one that fails in a tool, one that the
    user interrupts. *)
Definition succeeds : pipeline := fun _ => None.
Definition fails : pipeline :=
  fun _ => Some (CalledProcessError 2 "tabix -h ftp://example chr1:1-100").
Definition interrupted : pipeline := fun _ => Some KeyboardInterrupt.

End Sample.

(** ** Notions used to state the properties *)

(** [sub] occurs somewhere in [s]. *)
Definition occurs (sub s : string) : Prop :=
  exists before after, s = before +:+ sub +:+ after.

(** The output path once the '.vcf' check and the '.gz' step are through. *)
Definition with_vcf (p : string) : string :=
  if Str.endswith p ".vcf" then p else p +:+ ".vcf".

Definition with_gz (unzipped : bool) (p : string) : string :=
  if unzipped then p else p +:+ ".gz".

(** What a computation may do to the dictionary: it assigns to the keys in
    [keys] only, and never removes one. *)
Definition touches {A} (keys : list string) (m : M A) : Prop :=
  forall s,
    (forall k, k ∉ keys -> arguments (final (m s)) !! k = arguments s !! k) /\
    (forall k, is_Some (arguments s !! k) -> is_Some (arguments (final (m s)) !! k)).

(** A computation that returns has written nothing. *)
Definition silent {A} (m : M A) : Prop :=
  forall s a s', m s = Ok a s' -> trace s' = trace s.

(** The thread count as the specification words it: the integer the flag
    parses to when the flag is there, 6 when it is not; [None] stands for
    the parse error. *)
Definition spec_thread_count (flag : option string) : option Z :=
  match flag with
  | Some text => PyInt.parse text
  | None => Some 6
  end.

(** The derived output path as the specification words it: '.vcf' follows
    the joined name in every case. *)
Definition derived_out_as_stated : Prop :=
  forall pkg o d beds v u d' s',
    beds <> [] ->
    d !! "--in" = Some (VList beds) ->
    d !! "--out" = Some v -> truthy v = false ->
    d !! "--unzipped" = Some u ->
    parse_arguments pkg o (start d) = Ok d' s' ->
    d' !! "--out" =
    Some (VStr ((Path.join (getcwd o) (derived_filename beds) +:+ ".vcf")
                  +:+ (if truthy u then "" else ".gz"))).

(** The suffix of the resolved path as the specification words it: the
    doubled '.vcf.gz' whatever '--unzipped' says. *)
Definition out_suffix_as_stated : Prop :=
  (forall pkg o d u d' s',
      d !! "--unzipped" = Some u ->
      parse_arguments pkg o (start d) = Ok d' s' ->
      exists out, d' !! "--out" = Some (VStr out) /\
                  Str.endswith out (if truthy u then ".vcf" else ".vcf.gz") = true) /\
  (forall pkg o d q d' s',
      d !! "--out" = Some (VStr (q +:+ ".vcf.gz")) ->
      parse_arguments pkg o (start d) = Ok d' s' ->
      exists out, d' !! "--out" = Some (VStr out) /\
                  Str.endswith out ".vcf.gz.vcf.gz" = true).

(** The value a tool path resolves to as the specification words it: the
    flag if given, else the environment variable if set; [None] when
    neither is there. *)
Definition resolved_tool (o : os) (d : gmap string value) (t : string) : option value :=
  match d !! parameter_of t with
  | Some v => if truthy v then Some v else VStr <$> environ o !! env_varname_of t
  | None => None
  end.

(** The same environment with another answer to "is this a file?". *)
Definition with_isfile (o : os) (f : string -> bool) : os :=
  {| environ := environ o; getcwd := getcwd o; isfile := f |}.

(** The call main makes once every keyword argument is in the mapping. *)
Definition call_of (d : gmap string value) : pipeline_call :=
  {| bedfiles := default VNone (d !! "--in");
     threads := default VNone (d !! "--threads");
     outfile := default VNone (d !! "--out");
     gzip_output := negb (truthy (default VNone (d !! "--unzipped")));
     dry_run := default VNone (d !! "--dry-run");
     path_to_bcftools := default VNone (d !! "--path-to-bcftools");
     path_to_java := default VNone (d !! "--path-to-java");
     path_to_tabix := default VNone (d !! "--path-to-tabix");
     path_to_gatk3 := default VNone (d !! "--path-to-gatk3");
     path_to_bgzip := default VNone (d !! "--path-to-bgzip");
     path_to_reference_fasta := default VNone (d !! "--path-to-reference-fasta") |}.

(** The keys main reads for that call. *)
Definition run_keys : list string :=
  ["--in"; "--threads"; "--out"; "--unzipped"; "--dry-run";
   "--path-to-bcftools"; "--path-to-java"; "--path-to-tabix";
   "--path-to-gatk3"; "--path-to-bgzip"; "--path-to-reference-fasta"].

(** What the finally clause writes. *)
Definition cleanup_events (no_cleanup : bool) : list event :=
  if no_cleanup
  then [LogInfo "No cleanup requested, leaving the temp files."]
  else [LogInfo "Cleaning up temporary files."; CleanupTempFiles].

(** A computation that leaves through SystemExit does so without a code. *)
Definition exits_plainly {A} (m : M A) : Prop :=
  forall s code s', m s = Raise (SystemExit code) s' -> code = None.

(** A computation that leaves the dictionary alone and only adds [evs] to
    the output. *)
Definition appends {A} (r : result A) (s : state) (evs : list event) : Prop :=
  arguments (final r) = arguments s /\ trace (final r) = trace s ++ evs.

(** Cleanup on every way out of the program, as the specification words
    it. *)
Definition cleanup_as_stated : Prop :=
  forall pkg o run_pipeline c,
    cl_no_cleanup c = false ->
    CleanupTempFiles ∈ trace (final (main pkg o run_pipeline (docopt c))).

(** A computation that writes nothing, however it ends, and never leaves
    through SystemExit. *)
Definition quiet {A} (m : M A) : Prop :=
  forall s, trace (final (m s)) = trace s /\
            forall code, raised (m s) <> Some (SystemExit code).

(** * Properties *)

(** ** Strings *)

Local Arguments String.append : simpl nomatch.

Lemma sapp_cons (c : ascii) (a b : string) :
  String c a +:+ b = String c (a +:+ b).
Proof. reflexivity. Qed.

Lemma sapp_assoc (a b c : string) : (a +:+ b) +:+ c = a +:+ (b +:+ c).
Proof. induction a as [|x a IH]; simpl; [reflexivity | f_equal; exact IH]. Qed.

Lemma sapp_nil_r (a : string) : a +:+ "" = a.
Proof. induction a as [|x a IH]; simpl; [reflexivity | f_equal; exact IH]. Qed.

Lemma sapp_length (a b : string) :
  String.length (a +:+ b) = (String.length a + String.length b)%nat.
Proof. induction a as [|x a IH]; simpl; [reflexivity | f_equal; exact IH]. Qed.

Lemma endswith_unfold (s suf : string) :
  Str.endswith s suf =
  if String.eqb s suf then true
  else match s with
       | EmptyString => false
       | String _ s' => Str.endswith s' suf
       end.
Proof. destruct s; reflexivity. Qed.

Lemma endswith_refl (s : string) : Str.endswith s s = true.
Proof. rewrite endswith_unfold, String.eqb_refl. reflexivity. Qed.

Lemma endswith_app (p suf : string) : Str.endswith (p +:+ suf) suf = true.
Proof.
  induction p as [|c p IH].
  - apply endswith_refl.
  - rewrite sapp_cons, endswith_unfold, IH.
    now destruct (String.eqb _ _).
Qed.

Lemma endswith_split (s suf : string) :
  Str.endswith s suf = true -> exists p, s = p +:+ suf.
Proof.
  induction s as [|c s IH]; rewrite endswith_unfold.
  - destruct (String.eqb_spec "" suf) as [<-|]; [|discriminate].
    intros _. now exists "".
  - destruct (String.eqb_spec (String c s) suf) as [<-|].
    + intros _. now exists "".
    + intros H. destruct (IH H) as [p ->]. now exists (String c p).
Qed.

Lemma endswith_iff (s suf : string) :
  Str.endswith s suf = true <-> exists p, s = p +:+ suf.
Proof.
  split; [apply endswith_split | intros [p ->]; apply endswith_app].
Qed.

(** A suffix stays one when the same text is appended to both. *)
Lemma endswith_extend (s suf tail : string) :
  Str.endswith s suf = true -> Str.endswith (s +:+ tail) (suf +:+ tail) = true.
Proof.
  intros [p ->]%endswith_split. rewrite sapp_assoc. apply endswith_app.
Qed.

(** Two suffixes of one string of equal length are equal. *)
Lemma sapp_same_length_inv (p q a b : string) :
  p +:+ a = q +:+ b -> String.length a = String.length b -> a = b.
Proof.
  revert q. induction p as [|x p IH]; intros [|y q]; simpl; intros E L.
  - assumption.
  - exfalso. apply (f_equal String.length) in E. simpl in E.
    rewrite sapp_length in E. lia.
  - exfalso. apply (f_equal String.length) in E. simpl in E.
    rewrite sapp_length in E. lia.
  - injection E as _ E. eauto.
Qed.

Lemma endswith_vcf_not_gz (s : string) :
  Str.endswith s ".vcf" = true -> Str.endswith s ".gz" = false.
Proof.
  intros [p ->]%endswith_split.
  destruct (Str.endswith (p +:+ ".vcf") ".gz") eqn:E; [|reflexivity].
  apply endswith_split in E as [q E]. exfalso.
  change (p +:+ ".vcf") with (p +:+ ("." +:+ "vcf")) in E.
  rewrite <- sapp_assoc in E.
  apply sapp_same_length_inv in E; [discriminate | reflexivity].
Qed.

(** ** Removing '.bed' *)

Lemma replace_scan_cons (old new : string) (skip : nat) (c : ascii) (s : string) :
  Str.replace_scan old new skip (String c s) =
  match skip with
  | S k => Str.replace_scan old new k s
  | O =>
      if String.prefix old (String c s)
      then new +:+ Str.replace_scan old new (Nat.pred (String.length old)) s
      else String c (Str.replace_scan old new O s)
  end.
Proof. reflexivity. Qed.

Lemma prefix_app (pre s t : string) :
  String.prefix pre s = true -> String.prefix pre (s +:+ t) = true.
Proof.
  revert s. induction pre as [|a pre IH]; intros s.
  - intros _. now destruct (s +:+ t).
  - destruct s as [|b s]; [easy|].
    rewrite sapp_cons. simpl. destruct (ascii_dec a b); [apply IH | easy].
Qed.

Lemma prefix_length (pre s : string) :
  String.prefix pre s = true -> (String.length pre <= String.length s)%nat.
Proof.
  revert s. induction pre as [|a pre IH]; intros [|b s]; simpl; try easy; try lia.
  destruct (ascii_dec a b); [|easy]. intros H. apply IH in H. lia.
Qed.

Lemma prefix_nil (s : string) : String.prefix "" s = true.
Proof. now destruct s. Qed.

Lemma prefix_cons (a b : ascii) (pre s : string) :
  String.prefix (String a pre) (String b s) =
  if ascii_dec a b then String.prefix pre s else false.
Proof. reflexivity. Qed.

Lemma prefix_empty (a : ascii) (pre : string) :
  String.prefix (String a pre) "" = false.
Proof. reflexivity. Qed.

(** An occurrence of '.bed' that starts before another one ends before it:
    the text does not overlap itself. *)
Lemma bed_match_inside (c : ascii) (p q : string) :
  String.prefix ".bed" (String c p +:+ ".bed" +:+ q) = true ->
  String.prefix ".bed" (String c p) = true.
Proof.
  destruct p as [|c1 [|c2 [|c3 p]]]; rewrite ?sapp_cons;
    change ("" +:+ ".bed" +:+ q) with (".bed" +:+ q);
    change (".bed" +:+ q) with (String "." (String "b" (String "e" (String "d" q))));
    rewrite ?prefix_cons, ?prefix_nil, ?prefix_empty;
    repeat (match goal with
            | |- context [ascii_dec ?a ?b] => destruct (ascii_dec a b)
            end; subst; try easy).
Qed.

Lemma replace_scan_bed_app (p q : string) (skip : nat) :
  (skip <= String.length p)%nat ->
  Str.replace_scan ".bed" "" skip (p +:+ ".bed" +:+ q) =
  Str.replace_scan ".bed" "" skip p +:+ Str.replace_scan ".bed" "" 0 q.
Proof.
  revert skip. induction p as [|c p IH]; intros skip Hskip.
  - simpl in Hskip. replace skip with 0%nat by lia.
    change ("" +:+ ".bed" +:+ q)
      with (String "." (String "b" (String "e" (String "d" q)))).
    rewrite replace_scan_cons, !prefix_cons, prefix_nil.
    repeat (match goal with
            | |- context [ascii_dec ?a ?b] => destruct (ascii_dec a b)
            end; try congruence).
    reflexivity.
  - rewrite sapp_cons, !replace_scan_cons. destruct skip as [|k].
    + rewrite <- sapp_cons.
      destruct (String.prefix ".bed" (String c p)) eqn:Hin.
      * rewrite (prefix_app _ _ _ Hin).
        apply prefix_length in Hin. simpl in Hin.
        simpl Nat.pred. rewrite IH by lia. reflexivity.
      * destruct (String.prefix ".bed" (String c p +:+ ".bed" +:+ q)) eqn:Hout.
        -- apply bed_match_inside in Hout. congruence.
        -- rewrite IH by lia. reflexivity.
    + simpl in Hskip. apply IH. lia.
Qed.

Lemma replace_bed_app (p q : string) :
  Str.replace ".bed" "" (p +:+ ".bed" +:+ q) =
  Str.replace ".bed" "" p +:+ Str.replace ".bed" "" q.
Proof. apply replace_scan_bed_app. lia. Qed.

(** C10. With no --out, each input contributes its basename with every
    occurrence of '.bed' taken out, wherever it stands: what is left of an
    occurrence and what is right of it are treated alike and glued together.
    'my.bedfile.bed' contributes 'myfile' and 'x.bed.bed' contributes 'x'. *)
Theorem bed_removed_everywhere :
  (forall bed, derived_filename [bed] = Str.replace ".bed" "" (Path.basename bed)) /\
  (forall p q, Str.replace ".bed" "" (p +:+ ".bed" +:+ q) =
               Str.replace ".bed" "" p +:+ Str.replace ".bed" "" q) /\
  derived_filename ["my.bedfile.bed"] = "myfile" /\
  derived_filename ["x.bed.bed"] = "x" /\
  derived_filename ["regions/my.bedfile.bed"; "x.bed.bed"] = "myfile__x" /\
  (forall o s beds,
      arguments s !! "--out" = Some VNone ->
      arguments s !! "--in" = Some (VList beds) ->
      default_out o s =
      Ok tt (set_arg "--out"
               (VStr (Path.join (getcwd o)
                        (Str.join "__"
                           (map (fun bed => Str.replace ".bed" "" (Path.basename bed))
                              beds)))) s)).
Proof.
  repeat split; try reflexivity.
  - apply replace_bed_app.
  - intros o s beds Hout Hin. unfold default_out, bind, getitem.
    rewrite Hout. simpl. rewrite Hin. reflexivity.
Qed.

(** ** The effect monad *)

Lemma bind_Ok {A B} (m : M A) (k : A -> M B) s b s' :
  bind m k s = Ok b s' -> exists a s1, m s = Ok a s1 /\ k a s1 = Ok b s'.
Proof. unfold bind. destruct (m s) as [a s1|e s1]; [eauto | discriminate]. Qed.

Lemma bind_Raise {A B} (m : M A) (k : A -> M B) s e s' :
  bind m k s = Raise e s' ->
  m s = Raise e s' \/ exists a s1, m s = Ok a s1 /\ k a s1 = Raise e s'.
Proof.
  unfold bind. destruct (m s) as [a s1|e1 s1]; [eauto |].
  intros [= -> ->]. now left.
Qed.

Lemma bind_step_Ok {A B} (m : M A) (k : A -> M B) s a s1 :
  m s = Ok a s1 -> bind m k s = k a s1.
Proof. unfold bind. now intros ->. Qed.

Lemma bind_step_Raise {A B} (m : M A) (k : A -> M B) s e s1 :
  m s = Raise e s1 -> bind m k s = Raise e s1.
Proof. unfold bind. now intros ->. Qed.

Lemma touches_ret {A} keys (a : A) : touches keys (ret a).
Proof. intros s. split; auto. Qed.

Lemma touches_raise {A} keys e : touches keys (@raise A e).
Proof. intros s. split; auto. Qed.

Lemma touches_emit keys ev : touches keys (emit ev).
Proof. intros s. split; auto. Qed.

Lemma touches_getitem keys k : touches keys (getitem k).
Proof. intros s. unfold getitem. destruct (arguments s !! k); split; auto. Qed.

Lemma touches_contains keys k : touches keys (contains k).
Proof. intros s. split; auto. Qed.

Lemma touches_get_arguments keys : touches keys get_arguments.
Proof. intros s. split; auto. Qed.

Lemma touches_setitem keys k v : k ∈ keys -> touches keys (setitem k v).
Proof.
  intros Hk s. simpl. split.
  - intros k' Hk'. apply lookup_insert_ne. intros ->. contradiction.
  - intros k' Hs. destruct (decide (k = k')) as [->|Hne].
    + rewrite lookup_insert_eq. eauto.
    + now rewrite lookup_insert_ne.
Qed.

Lemma touches_bind {A B} keys (m : M A) (k : A -> M B) :
  touches keys m -> (forall a, touches keys (k a)) -> touches keys (bind m k).
Proof.
  intros Hm Hk s. unfold bind. specialize (Hm s).
  destruct (m s) as [a s1|e s1]; simpl in Hm; [|exact Hm].
  specialize (Hk a s1). destruct Hm as [Hm1 Hm2], Hk as [Hk1 Hk2]. split.
  - intros k' Hk'. rewrite Hk1, Hm1; auto.
  - intros k' Hs. auto.
Qed.

Lemma touches_for_each {A} keys (l : list A) (body : A -> M unit) :
  (forall x, x ∈ l -> touches keys (body x)) -> touches keys (for_each l body).
Proof.
  induction l as [|x l IH]; intros H; simpl.
  - apply touches_ret.
  - apply touches_bind.
    + apply H. left.
    + intros _. apply IH. intros y Hy. apply H. now right.
Qed.

Lemma silent_ret {A} (a : A) : silent (ret a).
Proof. intros s a' s' [= _ ->]. reflexivity. Qed.

Lemma silent_raise {A} e : silent (@raise A e).
Proof. intros s a s' [=]. Qed.

Lemma silent_getitem k : silent (getitem k).
Proof.
  intros s a s'. unfold getitem. destruct (arguments s !! k); [|discriminate].
  now intros [= _ ->].
Qed.

Lemma silent_setitem k v : silent (setitem k v).
Proof. intros s a s' [= _ <-]. reflexivity. Qed.

Lemma silent_contains k : silent (contains k).
Proof. intros s a s' [= _ <-]. reflexivity. Qed.

Lemma silent_get_arguments : silent get_arguments.
Proof. intros s a s' [= _ <-]. reflexivity. Qed.

Lemma silent_bind {A B} (m : M A) (k : A -> M B) :
  silent m -> (forall a, silent (k a)) -> silent (bind m k).
Proof.
  intros Hm Hk s b s' (a & s1 & H1 & H2)%bind_Ok.
  rewrite (Hk _ _ _ _ H2). eauto.
Qed.

(** Writing and then leaving never returns. *)
Lemma silent_exit {A} ev : silent (emit ev ;; @sys_exit A).
Proof. intros s a s' [=]. Qed.

Lemma silent_for_each {A} (l : list A) (body : A -> M unit) :
  (forall x, silent (body x)) -> silent (for_each l body).
Proof.
  intros H. induction l as [|x l IH]; simpl.
  - apply silent_ret.
  - apply silent_bind; auto.
Qed.

Ltac effects :=
  repeat first
    [ apply touches_ret | apply touches_raise | apply touches_emit
    | apply touches_getitem | apply touches_contains
    | apply touches_get_arguments
    | apply touches_setitem; set_solver
    | apply silent_ret | apply silent_raise | apply silent_getitem
    | apply silent_setitem | apply silent_contains
    | apply silent_get_arguments | apply silent_exit
    | apply touches_bind; [|intros ?]
    | apply silent_bind; [|intros ?]
    | match goal with
      | |- touches _ (if ?b then _ else _) => destruct b
      | |- silent (if ?b then _ else _) => destruct b
      | |- touches _ (match ?x with _ => _ end) => destruct x
      | |- silent (match ?x with _ => _ end) => destruct x
      end ].

Lemma touches_check_version pkg keys : touches keys (check_version pkg).
Proof. unfold check_version, sys_exit. effects. Qed.

Lemma silent_check_version pkg : silent (check_version pkg).
Proof. unfold check_version. effects. Qed.

Lemma touches_set_threads : touches ["--threads"] set_threads.
Proof. unfold set_threads, py_int. effects. Qed.

Lemma silent_set_threads : silent set_threads.
Proof. unfold set_threads, py_int. effects. Qed.

Lemma touches_default_out o : touches ["--out"] (default_out o).
Proof. unfold default_out, iterate. effects. Qed.

Lemma silent_default_out o : silent (default_out o).
Proof. unfold default_out, iterate. effects. Qed.

Lemma touches_add_suffixes : touches ["--out"] add_suffixes.
Proof. unfold add_suffixes, endswith, add_str. effects. Qed.

Lemma silent_add_suffixes : silent add_suffixes.
Proof. unfold add_suffixes, endswith, add_str. effects. Qed.

Lemma touches_mono {A} keys keys' (m : M A) :
  (forall k, k ∈ keys -> k ∈ keys') -> touches keys m -> touches keys' m.
Proof.
  intros Hsub Hm s. destruct (Hm s) as [H1 H2]. split; [|exact H2].
  intros k Hk. apply H1. intros Hin. apply Hk, Hsub, Hin.
Qed.

Lemma touches_resolve_tool o keys t :
  parameter_of t ∈ keys -> touches keys (resolve_tool o t).
Proof.
  intros Hin. unfold resolve_tool, sys_exit.
  apply touches_bind; [apply touches_getitem | intros v].
  destruct (negb (truthy v)); [|apply touches_ret].
  destruct (environ o !! env_varname_of t).
  - now apply touches_setitem.
  - effects.
Qed.

Lemma silent_resolve_tool o t : silent (resolve_tool o t).
Proof. unfold resolve_tool. effects. Qed.

Lemma touches_prepare pkg o : touches ["--threads"; "--out"] (prepare pkg o).
Proof.
  unfold prepare.
  apply touches_bind; [apply touches_check_version | intros _].
  apply touches_bind;
    [eapply touches_mono; [|apply touches_set_threads] | intros _].
  { intros k ->%list_elem_of_singleton. left. }
  apply touches_bind;
    [eapply touches_mono; [|apply touches_default_out] | intros _].
  { intros k ->%list_elem_of_singleton. right. left. }
  eapply touches_mono; [|apply touches_add_suffixes].
  intros k ->%list_elem_of_singleton. right. left.
Qed.

Lemma silent_prepare pkg o : silent (prepare pkg o).
Proof.
  unfold prepare.
  apply silent_bind; [apply silent_check_version | intros _].
  apply silent_bind; [apply silent_set_threads | intros _].
  apply silent_bind; [apply silent_default_out | intros _].
  apply silent_add_suffixes.
Qed.

Lemma touches_resolve_tools o :
  touches (map parameter_of varnames) (resolve_tools o).
Proof.
  apply touches_for_each. intros t Ht. apply touches_resolve_tool.
  now apply list_elem_of_fmap_2.
Qed.

Lemma silent_resolve_tools o : silent (resolve_tools o).
Proof. apply silent_for_each. intros t. apply silent_resolve_tool. Qed.

Lemma touches_overwrite_guard o keys : touches keys (overwrite_guard o).
Proof. unfold overwrite_guard, is_file, sys_exit. effects. Qed.

Lemma silent_overwrite_guard o : silent (overwrite_guard o).
Proof. unfold overwrite_guard, is_file. effects. Qed.

Lemma touches_Ok {A} keys (m : M A) s a s' k :
  touches keys m -> m s = Ok a s' -> k ∉ keys ->
  arguments s' !! k = arguments s !! k.
Proof. intros Hm E Hk. destruct (Hm s) as [H _]. rewrite E in H. auto. Qed.

Lemma touches_Raise {A} keys (m : M A) s e s' k :
  touches keys m -> m s = Raise e s' -> k ∉ keys ->
  arguments s' !! k = arguments s !! k.
Proof. intros Hm E Hk. destruct (Hm s) as [H _]. rewrite E in H. auto. Qed.

Lemma touches_keeps {A} keys (m : M A) s k :
  touches keys m -> is_Some (arguments s !! k) ->
  is_Some (arguments (final (m s)) !! k).
Proof. intros Hm. destruct (Hm s) as [_ H]. auto. Qed.

(** ** The stages of parse_arguments, one by one *)

Lemma check_version_eq pkg s :
  check_version pkg s =
  match arguments s !! "--version" with
  | None => Raise (KeyError "--version") s
  | Some v =>
      if truthy v
      then Raise (SystemExit None) (log (Print (version_message pkg)) s)
      else Ok tt s
  end.
Proof.
  unfold check_version, bind, getitem.
  destruct (arguments s !! "--version") as [v|]; [|reflexivity].
  now destruct (truthy v).
Qed.

Lemma set_threads_eq s :
  set_threads s =
  match arguments s !! "--threads" with
  | None => Raise (KeyError "--threads") s
  | Some v =>
      if truthy v
      then match py_int v s with
           | Ok n _ => Ok tt (set_arg "--threads" n s)
           | Raise e _ => Raise e s
           end
      else Ok tt (set_arg "--threads" (VInt 6) s)
  end.
Proof.
  unfold set_threads, bind, getitem.
  destruct (arguments s !! "--threads") as [v|] eqn:Hv; [|reflexivity].
  destruct (truthy v); [|reflexivity].
  rewrite Hv.
  destruct v as [|b|n|t|l]; simpl; try reflexivity.
  now destruct (PyInt.parse t).
Qed.

Lemma default_out_eq o s :
  default_out o s =
  match arguments s !! "--out" with
  | None => Raise (KeyError "--out") s
  | Some v =>
      if truthy v then Ok tt s
      else match arguments s !! "--in" with
           | None => Raise (KeyError "--in") s
           | Some (VList beds) =>
               Ok tt (set_arg "--out"
                        (VStr (Path.join (getcwd o) (derived_filename beds))) s)
           | Some (VStr t) =>
               Ok tt (set_arg "--out"
                        (VStr (Path.join (getcwd o) (derived_filename (Str.chars t)))) s)
           | Some _ => Raise TypeError s
           end
  end.
Proof.
  unfold default_out, bind, getitem.
  destruct (arguments s !! "--out") as [v|]; [|reflexivity].
  destruct (truthy v); simpl; [reflexivity|].
  destruct (arguments s !! "--in") as [[|b|n|t|l]|]; reflexivity.
Qed.

(** The suffix steps need a string under '--out' and some value under
    '--unzipped', and then go through. *)
Lemma add_suffixes_run s p u :
  arguments s !! "--out" = Some (VStr p) ->
  arguments s !! "--unzipped" = Some u ->
  exists s1, add_suffixes s = Ok tt s1 /\
             arguments s1 !! "--out" = Some (VStr (with_gz (truthy u) (with_vcf p))).
Proof.
  intros Hout Hu. unfold add_suffixes, bind, getitem, with_vcf, with_gz.
  rewrite Hout. simpl.
  destruct (Str.endswith p ".vcf"); simpl.
  - rewrite Hu. destruct (truthy u); simpl.
    + eauto.
    + rewrite Hout. simpl. eexists. split; [reflexivity|].
      simpl. apply lookup_insert_eq.
  - rewrite Hout. simpl. rewrite lookup_insert_ne by done. rewrite Hu.
    destruct (truthy u); simpl.
    + eexists. split; [reflexivity|]. simpl. apply lookup_insert_eq.
    + rewrite lookup_insert_eq. simpl. eexists. split; [reflexivity|].
      simpl. apply lookup_insert_eq.
Qed.

Lemma add_suffixes_needs s s1 :
  add_suffixes s = Ok tt s1 ->
  exists p u, arguments s !! "--out" = Some (VStr p) /\
              arguments s !! "--unzipped" = Some u.
Proof.
  unfold add_suffixes, bind, getitem.
  destruct (arguments s !! "--out") as [[|b|n|p|l]|] eqn:Hout; try discriminate.
  simpl. destruct (Str.endswith p ".vcf"); simpl; rewrite ?Hout; simpl.
  - destruct (arguments s !! "--unzipped") as [u|]; [eauto | discriminate].
  - rewrite lookup_insert_ne by done.
    destruct (arguments s !! "--unzipped") as [u|]; [eauto | discriminate].
Qed.

Lemma add_suffixes_Ok s s1 :
  add_suffixes s = Ok tt s1 ->
  exists p u, arguments s !! "--out" = Some (VStr p) /\
              arguments s !! "--unzipped" = Some u /\
              arguments s1 !! "--out" = Some (VStr (with_gz (truthy u) (with_vcf p))).
Proof.
  intros E. destruct (add_suffixes_needs _ _ E) as (p & u & Hout & Hu).
  destruct (add_suffixes_run _ _ _ Hout Hu) as (s1' & E' & H).
  rewrite E in E'. injection E' as <-. eauto.
Qed.

Lemma prepare_Ok pkg o s s1 :
  prepare pkg o s = Ok tt s1 ->
  exists sb sc,
    check_version pkg s = Ok tt s /\
    set_threads s = Ok tt sb /\
    default_out o sb = Ok tt sc /\
    add_suffixes sc = Ok tt s1.
Proof.
  unfold prepare.
  intros ([] & sa & Ha & ([] & sb & Hb & ([] & sc & Hc & Hd)%bind_Ok)%bind_Ok)%bind_Ok.
  assert (sa = s) as ->.
  { rewrite check_version_eq in Ha.
    destruct (arguments s !! "--version") as [v|]; [|discriminate].
    destruct (truthy v); [discriminate|]. now injection Ha. }
  eauto 10.
Qed.

Lemma parse_arguments_Ok pkg o s d s' :
  parse_arguments pkg o s = Ok d s' ->
  exists s1 s2,
    prepare pkg o s = Ok tt s1 /\
    resolve_tools o s1 = Ok tt s2 /\
    overwrite_guard o s2 = Ok tt s' /\
    d = arguments s'.
Proof.
  unfold parse_arguments.
  intros ([] & s1 & H1 & ([] & s2 & H2 & ([] & s3 & H3 & H4)%bind_Ok)%bind_Ok)%bind_Ok.
  injection H4 as <- <-. eauto 10.
Qed.

Lemma parse_arguments_silent pkg o s d s' :
  parse_arguments pkg o s = Ok d s' -> trace s' = trace s.
Proof.
  intros (s1 & s2 & H1 & H2 & H3 & _)%parse_arguments_Ok.
  rewrite (silent_overwrite_guard _ _ _ _ H3), (silent_resolve_tools _ _ _ _ H2).
  apply (silent_prepare _ _ _ _ _ H1).
Qed.

Ltac not_in_list :=
  let H := fresh in
  intros H; repeat (apply elem_of_cons in H as [H|H]; [discriminate H|]);
  apply elem_of_nil in H; exact H.

(** A key that is neither '--threads', '--out' nor a tool path keeps its
    value through parse_arguments; no key is ever removed. *)
Lemma touches_parse_arguments pkg o :
  touches ("--threads" :: "--out" :: map parameter_of varnames)
    (parse_arguments pkg o).
Proof.
  unfold parse_arguments.
  apply touches_bind;
    [eapply touches_mono; [|apply touches_prepare] | intros _].
  { intros k Hk. apply elem_of_cons in Hk as [->|Hk]; [left|].
    apply elem_of_cons in Hk as [->|Hk]; [right; left|].
    now apply elem_of_nil in Hk. }
  apply touches_bind;
    [eapply touches_mono; [|apply touches_resolve_tools] | intros _].
  { intros k Hk. right. right. exact Hk. }
  apply touches_bind; [apply touches_overwrite_guard | intros _].
  apply touches_get_arguments.
Qed.

(** ** Thread count *)

Lemma threads_after_set pkg o s sb d s' v :
  set_threads s = Ok tt sb ->
  arguments sb !! "--threads" = Some v ->
  check_version pkg s = Ok tt s ->
  parse_arguments pkg o s = Ok d s' ->
  d !! "--threads" = Some v.
Proof.
  intros Hset Hv Hver (s1 & s2 & H1 & H2 & H3 & ->)%parse_arguments_Ok.
  apply prepare_Ok in H1 as (sb' & sc & _ & Hb & Hc & Hd).
  rewrite Hset in Hb. injection Hb as <-.
  rewrite (touches_Ok _ _ _ _ _ "--threads" (touches_overwrite_guard o []) H3)
    by not_in_list.
  rewrite (touches_Ok _ _ _ _ _ "--threads" (touches_resolve_tools o) H2)
    by (vm_compute; not_in_list).
  rewrite (touches_Ok _ _ _ _ _ "--threads" touches_add_suffixes Hd)
    by not_in_list.
  rewrite (touches_Ok _ _ _ _ _ "--threads" (touches_default_out o) Hc)
    by not_in_list.
  exact Hv.
Qed.

(** C6. The thread count is what the '--threads' text parses to when the
    flag is given and 6 when it is not; a text that is no number makes the
    conversion raise ValueError, which neither parse_arguments nor main
    catches. *)
Theorem thread_count_parsed pkg o run_pipeline d ver flag :
  d !! "--version" = Some ver -> truthy ver = false ->
  d !! "--threads" = Some (opt_value flag) -> flag <> Some "" ->
  match spec_thread_count flag with
  | Some n =>
      set_threads (start d) = Ok tt (set_arg "--threads" (VInt n) (start d)) /\
      forall d' s', parse_arguments pkg o (start d) = Ok d' s' ->
                    d' !! "--threads" = Some (VInt n)
  | None =>
      parse_arguments pkg o (start d) = Raise ValueError (start d) /\
      main pkg o run_pipeline d = Raise ValueError (start d)
  end.
Proof.
  intros Hver Hfalse Hthreads Hflag.
  assert (Hcheck : check_version pkg (start d) = Ok tt (start d)).
  { rewrite check_version_eq. simpl. now rewrite Hver, Hfalse. }
  assert (Hset : set_threads (start d) =
                 match spec_thread_count flag with
                 | Some n => Ok tt (set_arg "--threads" (VInt n) (start d))
                 | None => Raise ValueError (start d)
                 end).
  { rewrite set_threads_eq. simpl arguments. rewrite Hthreads.
    destruct flag as [text|]; simpl; [|reflexivity].
    destruct (String.eqb_spec text "") as [->|_]; [congruence|]. simpl.
    now destruct (PyInt.parse text). }
  destruct (spec_thread_count flag) as [n|].
  - split; [exact Hset|]. intros d' s' Hparse.
    eapply threads_after_set; eauto. apply lookup_insert_eq.
  - assert (Hparse : parse_arguments pkg o (start d) = Raise ValueError (start d)).
    { unfold parse_arguments, prepare.
      apply bind_step_Raise. rewrite (bind_step_Ok _ _ _ _ _ Hcheck).
      now apply bind_step_Raise. }
    split; [exact Hparse|].
    unfold main, main_body. now apply bind_step_Raise.
Qed.

(** ** Output path *)

Lemma with_vcf_ends (p : string) : Str.endswith (with_vcf p) ".vcf" = true.
Proof.
  unfold with_vcf. destruct (Str.endswith p ".vcf") eqn:E; [exact E|].
  apply endswith_app.
Qed.

(** The path is resolved by the time the suffix steps are through: [p] is
    the given text, or the derived one when none was given. *)
Lemma prepare_out pkg o s s1 :
  prepare pkg o s = Ok tt s1 ->
  exists p u,
    arguments s !! "--unzipped" = Some u /\
    arguments s1 !! "--out" = Some (VStr (with_gz (truthy u) (with_vcf p))) /\
    (forall v, arguments s !! "--out" = Some v -> truthy v = true -> v = VStr p) /\
    (forall v beds, arguments s !! "--out" = Some v -> truthy v = false ->
                    arguments s !! "--in" = Some (VList beds) ->
                    p = Path.join (getcwd o) (derived_filename beds)).
Proof.
  intros (sb & sc & _ & Hb & Hc & Hd)%prepare_Ok.
  pose proof (touches_Ok _ _ _ _ _ "--out" touches_set_threads Hb
                ltac:(not_in_list)) as Hout_b.
  pose proof (touches_Ok _ _ _ _ _ "--in" touches_set_threads Hb
                ltac:(not_in_list)) as Hin_b.
  pose proof (touches_Ok _ _ _ _ _ "--unzipped" touches_set_threads Hb
                ltac:(not_in_list)) as Hu_b.
  pose proof (touches_Ok _ _ _ _ _ "--unzipped" (touches_default_out o) Hc
                ltac:(not_in_list)) as Hu_c.
  apply add_suffixes_Ok in Hd as (p & u & Hout_c & Hu & Hout).
  exists p, u. rewrite <- Hu_b, <- Hu_c. split; [exact Hu|]. split; [exact Hout|].
  rewrite default_out_eq in Hc. rewrite Hout_b, Hin_b in Hc.
  split.
  - intros v Hv Ht. rewrite Hv, Ht in Hc. injection Hc as <-.
    rewrite Hout_b, Hv in Hout_c. now injection Hout_c.
  - intros v beds Hv Ht Hin. rewrite Hv, Ht, Hin in Hc. injection Hc as <-.
    simpl in Hout_c. rewrite lookup_insert_eq in Hout_c. now injection Hout_c.
Qed.

Lemma parse_arguments_out pkg o s d s' :
  parse_arguments pkg o s = Ok d s' ->
  exists p u,
    arguments s !! "--unzipped" = Some u /\
    d !! "--out" = Some (VStr (with_gz (truthy u) (with_vcf p))) /\
    (forall v, arguments s !! "--out" = Some v -> truthy v = true -> v = VStr p) /\
    (forall v beds, arguments s !! "--out" = Some v -> truthy v = false ->
                    arguments s !! "--in" = Some (VList beds) ->
                    p = Path.join (getcwd o) (derived_filename beds)).
Proof.
  intros (s1 & s2 & H1 & H2 & H3 & ->)%parse_arguments_Ok.
  destruct (prepare_out _ _ _ _ H1) as (p & u & Hu & Hout & Hgiven & Hderived).
  exists p, u. split; [exact Hu|]. split; [|split; assumption].
  rewrite (touches_Ok _ _ _ _ _ "--out" (touches_overwrite_guard o []) H3)
    by not_in_list.
  rewrite (touches_Ok _ _ _ _ _ "--out" (touches_resolve_tools o) H2)
    by (vm_compute; not_in_list).
  exact Hout.
Qed.

Lemma join_relative (a b : string) :
  Str.startswith b "/" = false -> exists a', Path.join a b = a' +:+ b.
Proof.
  intros H. unfold Path.join. rewrite H.
  destruct (String.eqb a "" || Str.endswith a "/").
  - now exists a.
  - exists (a +:+ "/"). now rewrite sapp_assoc.
Qed.

Lemma with_gz_ends (u : bool) (p : string) :
  Str.endswith p ".vcf" = true ->
  Str.endswith (with_gz u p) (if u then ".vcf" else ".vcf.gz") = true.
Proof.
  intros H. destruct u; simpl; [exact H|].
  now apply (endswith_extend p ".vcf" ".gz").
Qed.

(** C2, as the code has it. With no --out, the resolved path is the working
    directory joined with the '__'-joined basenames without their '.bed',
    then '.vcf' unless that joined path ends in '.vcf' already, then '.gz'
    unless --unzipped is set.  For a.bed and b.bed it is <cwd>/a__b.vcf.gz;
    with --unzipped the path ends in '.vcf' and not in '.gz'. *)
Theorem derived_out_path pkg o d beds v u :
  d !! "--in" = Some (VList beds) ->
  d !! "--out" = Some v -> truthy v = false ->
  d !! "--unzipped" = Some u ->
  let joined := Path.join (getcwd o) (derived_filename beds) in
  let resolved := with_gz (truthy u) (with_vcf joined) in
  (exists s1, (default_out o ;; add_suffixes) (start d) = Ok tt s1 /\
              arguments s1 !! "--out" = Some (VStr resolved)) /\
  (forall d' s', parse_arguments pkg o (start d) = Ok d' s' ->
                 d' !! "--out" = Some (VStr resolved)) /\
  (beds = ["a.bed"; "b.bed"] -> truthy u = false ->
   joined = Path.join (getcwd o) "a__b" /\ resolved = joined +:+ ".vcf.gz") /\
  (truthy u = true ->
   Str.endswith resolved ".vcf" = true /\ Str.endswith resolved ".gz" = false).
Proof.
  intros Hin Hout Hfalse Hu joined resolved.
  split; [|split; [|split]].
  - assert (Hd : default_out o (start d) =
                 Ok tt (set_arg "--out" (VStr joined) (start d))).
    { rewrite default_out_eq. simpl arguments. now rewrite Hout, Hfalse, Hin. }
    destruct (add_suffixes_run (set_arg "--out" (VStr joined) (start d)) joined u)
      as (s1 & Hs & Hr).
    + apply lookup_insert_eq.
    + simpl. now rewrite lookup_insert_ne.
    + exists s1. split; [|exact Hr]. now rewrite (bind_step_Ok _ _ _ _ _ Hd).
  - intros d' s' Hparse.
    destruct (parse_arguments_out _ _ _ _ _ Hparse)
      as (p & u' & Hu' & Hres & _ & Hderived).
    simpl in Hu'. rewrite Hu in Hu'. injection Hu' as <-.
    rewrite (Hderived v beds Hout Hfalse Hin) in Hres. exact Hres.
  - intros Hbeds Htruthy. split; [subst joined; now rewrite Hbeds|].
    subst resolved. rewrite Htruthy. unfold with_gz.
    assert (Hno : Str.endswith joined ".vcf" = false).
    { subst joined. rewrite Hbeds.
      change (derived_filename ["a.bed"; "b.bed"]) with "a__b".
      destruct (join_relative (getcwd o) "a__b" eq_refl) as [a' ->].
      destruct (Str.endswith (a' +:+ "a__b") ".vcf") eqn:E; [|reflexivity].
      apply endswith_split in E as [r E].
      apply sapp_same_length_inv in E; [discriminate | reflexivity]. }
    unfold with_vcf. rewrite Hno. now rewrite sapp_assoc.
  - intros Htruthy. subst resolved. rewrite Htruthy. split.
    + apply with_vcf_ends.
    + apply endswith_vcf_not_gz, with_vcf_ends.
Qed.

(** C2 as stated fails: the input a.vcf.bed leaves the name a.vcf, to which
    no second '.vcf' is added. *)
Lemma derived_out_counterexample :
  (exists d' s',
      parse_arguments Sample.pkg (Sample.os_with false)
        (start (docopt (Sample.with_in ["a.vcf.bed"] Sample.cl))) = Ok d' s' /\
      d' !! "--out" = Some (VStr "/home/user/a.vcf.gz")) /\
  ~ derived_out_as_stated.
Proof.
  assert (E : exists d' s',
             parse_arguments Sample.pkg (Sample.os_with false)
               (start (docopt (Sample.with_in ["a.vcf.bed"] Sample.cl))) = Ok d' s' /\
             d' !! "--out" = Some (VStr "/home/user/a.vcf.gz")).
  { eexists _, _. split; [vm_compute; reflexivity | reflexivity]. }
  split; [exact E|].
  intros H. destruct E as (d' & s' & Hparse & Hout).
  specialize (H Sample.pkg (Sample.os_with false)
                (docopt (Sample.with_in ["a.vcf.bed"] Sample.cl))
                ["a.vcf.bed"] VNone (VBool false) d' s'
                ltac:(discriminate) eq_refl eq_refl eq_refl eq_refl Hparse).
  rewrite Hout in H. vm_compute in H. discriminate H.
Qed.

Lemma vcf_gz_not_vcf (q : string) : Str.endswith (q +:+ ".vcf.gz") ".vcf" = false.
Proof.
  destruct (Str.endswith (q +:+ ".vcf.gz") ".vcf") eqn:E; [|reflexivity].
  apply endswith_split in E as [r E].
  change (q +:+ ".vcf.gz") with (q +:+ (".vc" +:+ "f.gz")) in E.
  rewrite <- sapp_assoc in E.
  apply sapp_same_length_inv in E; [discriminate | reflexivity].
Qed.

(** C9, as the code has it. Whatever path is given or derived, the resolved
    one ends in '.vcf' when --unzipped is set and in '.vcf.gz' when it is
    not. A given path is kept and only added to: one that ends in '.vcf.gz'
    gets '.vcf' and then, unless --unzipped is set, '.gz', so that it ends
    in '.vcf.gz.vcf.gz' without --unzipped and in '.vcf.gz.vcf' with it. *)
Theorem out_suffix pkg o d u d' s' :
  d !! "--unzipped" = Some u ->
  parse_arguments pkg o (start d) = Ok d' s' ->
  exists out,
    d' !! "--out" = Some (VStr out) /\
    Str.endswith out (if truthy u then ".vcf" else ".vcf.gz") = true /\
    (forall p, d !! "--out" = Some (VStr p) -> p <> "" ->
               exists suffix, out = p +:+ suffix) /\
    (forall q, d !! "--out" = Some (VStr (q +:+ ".vcf.gz")) ->
               out = (q +:+ ".vcf.gz") +:+ ".vcf" +:+ (if truthy u then "" else ".gz") /\
               (truthy u = false -> Str.endswith out ".vcf.gz.vcf.gz" = true) /\
               (truthy u = true -> Str.endswith out ".vcf.gz.vcf" = true)).
Proof.
  intros Hu Hparse.
  destruct (parse_arguments_out _ _ _ _ _ Hparse)
    as (p & u' & Hu' & Hres & Hgiven & _).
  simpl in Hu', Hgiven. rewrite Hu in Hu'. injection Hu' as <-.
  exists (with_gz (truthy u) (with_vcf p)).
  split; [exact Hres|]. split; [apply with_gz_ends, with_vcf_ends|]. split.
  - intros p' Hp' Hne.
    assert (Ht : truthy (VStr p') = true).
    { simpl. now destruct (String.eqb_spec p' ""). }
    specialize (Hgiven _ Hp' Ht). injection Hgiven as ->.
    unfold with_gz, with_vcf.
    destruct (truthy u), (Str.endswith p ".vcf").
    + exists "". now rewrite sapp_nil_r.
    + now exists ".vcf".
    + now exists ".gz".
    + exists ".vcf.gz". now rewrite sapp_assoc.
  - intros q Hq.
    assert (Ht : truthy (VStr (q +:+ ".vcf.gz")) = true).
    { simpl. now destruct q. }
    specialize (Hgiven _ Hq Ht). injection Hgiven as <-.
    assert (E : with_gz (truthy u) (with_vcf (q +:+ ".vcf.gz")) =
                (q +:+ ".vcf.gz") +:+ ".vcf" +:+ (if truthy u then "" else ".gz")).
    { unfold with_gz, with_vcf. rewrite vcf_gz_not_vcf.
      destruct (truthy u); [reflexivity | now rewrite sapp_assoc]. }
    split; [exact E|]. rewrite E. split; intros ->.
    + rewrite sapp_assoc. apply (endswith_app q ".vcf.gz.vcf.gz").
    + rewrite sapp_assoc. apply (endswith_app q ".vcf.gz.vcf").
Qed.

(** C9 as stated fails: with --unzipped, x.vcf.gz resolves to
    x.vcf.gz.vcf. *)
Lemma out_suffix_counterexample :
  (exists d' s',
      parse_arguments Sample.pkg (Sample.os_with false)
        (start (<["--unzipped" := VBool true]> Sample.out_given)) = Ok d' s' /\
      d' !! "--out" = Some (VStr "x.vcf.gz.vcf")) /\
  ~ out_suffix_as_stated.
Proof.
  assert (E : exists d' s',
             parse_arguments Sample.pkg (Sample.os_with false)
               (start (<["--unzipped" := VBool true]> Sample.out_given))
             = Ok d' s' /\
             d' !! "--out" = Some (VStr "x.vcf.gz.vcf")).
  { eexists _, _. split; [vm_compute; reflexivity | reflexivity]. }
  split; [exact E|].
  intros [_ H]. destruct E as (d' & s' & Hparse & Hout).
  assert (Hgiven : <["--unzipped" := VBool true]> Sample.out_given
                    !! "--out" = Some (VStr ("x" +:+ ".vcf.gz")))
    by (vm_compute; reflexivity).
  destruct (H Sample.pkg (Sample.os_with false) _ "x" d' s' Hgiven Hparse)
    as (out & Hout' & Hends).
  rewrite Hout in Hout'. injection Hout' as <-.
  vm_compute in Hends. discriminate Hends.
Qed.

(** ** Tool paths *)

Lemma resolve_tool_eq o t s :
  resolve_tool o t s =
  match arguments s !! parameter_of t with
  | None => Raise (KeyError (parameter_of t)) s
  | Some v =>
      if truthy v then Ok tt s
      else match environ o !! env_varname_of t with
           | Some p => Ok tt (set_arg (parameter_of t) (VStr p) s)
           | None =>
               Raise (SystemExit None)
                 (log (Print (missing_message (parameter_of t) (env_varname_of t))) s)
           end
  end.
Proof.
  unfold resolve_tool, bind, getitem.
  destruct (arguments s !! parameter_of t) as [v|]; [|reflexivity].
  destruct (truthy v); simpl; [reflexivity|].
  now destruct (environ o !! env_varname_of t).
Qed.

Lemma resolved_tool_frame o d d' t :
  d' !! parameter_of t = d !! parameter_of t ->
  resolved_tool o d' t = resolved_tool o d t.
Proof. unfold resolved_tool. now intros ->. Qed.

Lemma resolve_tool_Ok o t s s1 :
  resolve_tool o t s = Ok tt s1 ->
  trace s1 = trace s /\
  arguments s1 !! parameter_of t = resolved_tool o (arguments s) t /\
  is_Some (resolved_tool o (arguments s) t) /\
  (forall k, k <> parameter_of t -> arguments s1 !! k = arguments s !! k).
Proof.
  rewrite resolve_tool_eq. unfold resolved_tool.
  destruct (arguments s !! parameter_of t) as [v|] eqn:Hv; [|discriminate].
  destruct (truthy v).
  - intros [= <-]. rewrite Hv. eauto.
  - destruct (environ o !! env_varname_of t) as [p|]; [|discriminate].
    intros [= <-]. simpl. rewrite lookup_insert_eq. repeat split; eauto.
    intros k Hk. now rewrite lookup_insert_ne.
Qed.

Lemma resolve_tool_runs o t s :
  is_Some (resolved_tool o (arguments s) t) ->
  exists s1, resolve_tool o t s = Ok tt s1.
Proof.
  rewrite resolve_tool_eq. unfold resolved_tool.
  destruct (arguments s !! parameter_of t) as [v|]; [|intros [? [=]]].
  destruct (truthy v); [eauto|].
  destruct (environ o !! env_varname_of t) as [p|]; [eauto | intros [? [=]]].
Qed.

Lemma for_each_tools_Ok o l s s' :
  NoDup (parameter_of <$> l) ->
  for_each l (resolve_tool o) s = Ok tt s' ->
  forall t, t ∈ l ->
    arguments s' !! parameter_of t = resolved_tool o (arguments s) t /\
    is_Some (resolved_tool o (arguments s) t).
Proof.
  revert s. induction l as [|x l IH]; intros s Hnd Hrun t Ht.
  - now apply elem_of_nil in Ht.
  - rewrite fmap_cons in Hnd. apply NoDup_cons in Hnd as [Hx Hnd].
    simpl in Hrun. apply bind_Ok in Hrun as ([] & s1 & H1 & H2).
    apply resolve_tool_Ok in H1 as (_ & Hval & Hsome & Hframe).
    apply elem_of_cons in Ht as [->|Ht].
    + split; [|exact Hsome]. rewrite <- Hval.
      apply (touches_Ok (parameter_of <$> l) _ _ _ _ _
               (touches_for_each _ _ _
                  (fun y Hy => touches_resolve_tool o _ y
                                 (list_elem_of_fmap_2 parameter_of _ _ Hy))) H2 Hx).
    + assert (Hne : parameter_of t <> parameter_of x).
      { intros E. apply Hx. rewrite <- E. now apply list_elem_of_fmap_2. }
      rewrite <- (resolved_tool_frame o (arguments s) (arguments s1) t (Hframe _ Hne)).
      now apply IH.
Qed.

Lemma for_each_tools_missing o pre t post s v :
  NoDup (parameter_of <$> (pre ++ t :: post)) ->
  (forall t', t' ∈ pre -> is_Some (resolved_tool o (arguments s) t')) ->
  arguments s !! parameter_of t = Some v -> truthy v = false ->
  environ o !! env_varname_of t = None ->
  exists s',
    for_each (pre ++ t :: post) (resolve_tool o) s = Raise (SystemExit None) s' /\
    trace s' = trace s ++ [Print (missing_message (parameter_of t) (env_varname_of t))].
Proof.
  revert s. induction pre as [|x pre IH]; intros s Hnd Hpre Hv Hfalse Henv.
  - simpl. eexists. split.
    + apply bind_step_Raise. rewrite resolve_tool_eq, Hv, Hfalse, Henv. reflexivity.
    + reflexivity.
  - change ((x :: pre) ++ t :: post) with (x :: (pre ++ t :: post)) in Hnd.
    rewrite fmap_cons in Hnd. apply NoDup_cons in Hnd as [Hx Hnd].
    destruct (resolve_tool_runs o x s) as [s1 H1]; [apply Hpre; left|].
    pose proof (resolve_tool_Ok _ _ _ _ H1) as (Htrace & _ & _ & Hframe).
    assert (Hother : forall y, y ∈ pre ++ t :: post ->
                               arguments s1 !! parameter_of y =
                               arguments s !! parameter_of y).
    { intros y Hy. apply Hframe. intros E. apply Hx. rewrite <- E.
      now apply list_elem_of_fmap_2. }
    destruct (IH s1 Hnd) as (s' & Hrun & Htr).
    + intros t' Ht'.
      rewrite (resolved_tool_frame o (arguments s) (arguments s1) t').
      * apply Hpre. now right.
      * apply Hother. apply elem_of_app. now left.
    + rewrite Hother; [exact Hv|]. apply elem_of_app. right. left.
    + exact Hfalse.
    + exact Henv.
    + exists s'. split.
      * simpl. now rewrite (bind_step_Ok _ _ _ _ _ H1).
      * now rewrite Htr, Htrace.
Qed.

Lemma parameters_distinct : NoDup (parameter_of <$> varnames).
Proof. apply (bool_decide_unpack _). vm_compute. reflexivity. Qed.

Lemma parameter_not_prepared t :
  t ∈ varnames -> parameter_of t ∉ ["--threads"; "--out"].
Proof.
  unfold varnames. intros Ht.
  repeat (apply elem_of_cons in Ht as [->|Ht]; [vm_compute; not_in_list|]).
  now apply elem_of_nil in Ht.
Qed.

Lemma resolved_tool_prepared pkg o s s1 t :
  prepare pkg o s = Ok tt s1 -> t ∈ varnames ->
  resolved_tool o (arguments s1) t = resolved_tool o (arguments s) t.
Proof.
  intros Hprep Ht. apply resolved_tool_frame.
  apply (touches_Ok _ _ _ _ _ _ (touches_prepare pkg o) Hprep).
  now apply parameter_not_prepared.
Qed.

Lemma missing_message_names (p e : string) :
  occurs p (missing_message p e) /\ occurs e (missing_message p e).
Proof.
  unfold occurs, missing_message. split.
  - exists "Missing either ", (" " +:+ "or ENV variable " +:+ e).
    now rewrite !sapp_assoc.
  - exists ("Missing either " +:+ p +:+ " " +:+ "or ENV variable "), "".
    now rewrite sapp_nil_r, !sapp_assoc.
Qed.

(** C3. Each tool path resolves to its flag if given, else to the
    environment variable PATH_TO_<TOOL> if set; the tools are looked at in
    the order bcftools, tabix, bgzip, gatk3, java, reference_fasta, and
    the first one with neither prints one message naming the flag and the
    variable and ends the program there: nothing is printed for the tools
    after it and the pipeline is not started. *)
Theorem tool_paths_resolved pkg o run_pipeline d s1 :
  prepare pkg o (start d) = Ok tt s1 ->
  (parameter_of <$> varnames =
     ["--path-to-bcftools"; "--path-to-tabix"; "--path-to-bgzip";
      "--path-to-gatk3"; "--path-to-java"; "--path-to-reference-fasta"] /\
   env_varname_of <$> varnames =
     ["PATH_TO_BCFTOOLS"; "PATH_TO_TABIX"; "PATH_TO_BGZIP";
      "PATH_TO_GATK3"; "PATH_TO_JAVA"; "PATH_TO_REFERENCE_FASTA"]) /\
  (forall d' s', parse_arguments pkg o (start d) = Ok d' s' ->
     forall t, t ∈ varnames ->
       d' !! parameter_of t = resolved_tool o d t /\
       is_Some (resolved_tool o d t)) /\
  (forall pre t post v,
     varnames = pre ++ t :: post ->
     (forall t', t' ∈ pre -> is_Some (resolved_tool o d t')) ->
     d !! parameter_of t = Some v -> truthy v = false ->
     environ o !! env_varname_of t = None ->
     let message := missing_message (parameter_of t) (env_varname_of t) in
     occurs (parameter_of t) message /\ occurs (env_varname_of t) message /\
     exists s',
       parse_arguments pkg o (start d) = Raise (SystemExit None) s' /\
       main pkg o run_pipeline d = Raise (SystemExit None) s' /\
       trace s' = [Print message]).
Proof.
  intros Hprep. split; [split; reflexivity|]. split.
  - intros d' s' (s1' & s2 & H1 & H2 & H3 & ->)%parse_arguments_Ok t Ht.
    rewrite H1 in Hprep. injection Hprep as ->.
    destruct (for_each_tools_Ok o varnames s1 s2 parameters_distinct H2 t Ht)
      as [Hval Hsome].
    rewrite (resolved_tool_prepared _ _ _ _ _ H1 Ht) in Hval, Hsome.
    change (arguments (start d)) with d in Hval, Hsome.
    split; [|exact Hsome]. rewrite <- Hval.
    apply (touches_Ok [] _ _ _ _ _ (touches_overwrite_guard o []) H3).
    apply not_elem_of_nil.
  - intros pre t post v Hvar Hpre Hv Hfalse Henv message.
    destruct (missing_message_names (parameter_of t) (env_varname_of t))
      as [Hp He].
    split; [exact Hp|]. split; [exact He|].
    assert (Hin : forall y, y ∈ pre ++ t :: post -> y ∈ varnames)
      by (intros y Hy; now rewrite Hvar).
    destruct (for_each_tools_missing o pre t post s1 v) as (s' & Hrun & Htr).
    + rewrite <- Hvar. apply parameters_distinct.
    + intros t' Ht'. rewrite (resolved_tool_prepared _ _ _ _ t' Hprep).
      * now apply Hpre.
      * apply Hin, elem_of_app. now left.
    + rewrite (touches_Ok _ _ _ _ _ _ (touches_prepare pkg o) Hprep); [exact Hv|].
      apply parameter_not_prepared, Hin, elem_of_app. right. left.
    + exact Hfalse.
    + exact Henv.
    + assert (Hparse : parse_arguments pkg o (start d) = Raise (SystemExit None) s').
      { unfold parse_arguments. rewrite (bind_step_Ok _ _ _ _ _ Hprep).
        apply bind_step_Raise. unfold resolve_tools. now rewrite Hvar. }
      exists s'. split; [exact Hparse|]. split.
      * unfold main, main_body. now apply bind_step_Raise.
      * rewrite Htr, (silent_prepare _ _ _ _ _ Hprep). reflexivity.
Qed.

(** ** Overwrite guard *)

Lemma overwrite_guard_eq o s :
  overwrite_guard o s =
  match arguments s !! "--force" with
  | Some _ => Ok tt s
  | None =>
      match arguments s !! "--out" with
      | None => Raise (KeyError "--out") s
      | Some (VStr p) =>
          if isfile o p
          then Raise (SystemExit None) (log (LogWarning (exists_message p)) s)
          else Ok tt s
      | Some _ => Raise TypeError s
      end
  end.
Proof.
  unfold overwrite_guard, bind, contains, getitem.
  destruct (arguments s !! "--force") as [f|] eqn:Hf.
  - rewrite bool_decide_eq_true_2 by eauto. reflexivity.
  - rewrite bool_decide_eq_false_2 by (intros [? [=]]). simpl.
    destruct (arguments s !! "--out") as [[|b|n|p|l]|] eqn:Hout; try reflexivity.
    simpl. destruct (isfile o p); [|reflexivity]. now rewrite Hout.
Qed.

Lemma force_kept pkg o s s1 s2 :
  prepare pkg o s = Ok tt s1 -> resolve_tools o s1 = Ok tt s2 ->
  arguments s2 !! "--force" = arguments s !! "--force".
Proof.
  intros H1 H2.
  rewrite (touches_Ok _ _ _ _ _ "--force" (touches_resolve_tools o) H2)
    by (vm_compute; not_in_list).
  apply (touches_Ok _ _ _ _ _ "--force" (touches_prepare pkg o) H1).
  not_in_list.
Qed.

(** C1. Once the lines before the guard are through and the file at the
    resolved output path exists: if the key '--force' is not in the mapping,
    parse_arguments logs the warning and leaves through sys.exit(), and main
    ends there with the pipeline not called; if the key is in the mapping,
    whatever its value, parse_arguments returns the mapping. *)
Theorem overwrite_guard_key_absence pkg o run_pipeline d s1 s2 out :
  prepare pkg o (start d) = Ok tt s1 ->
  resolve_tools o s1 = Ok tt s2 ->
  arguments s2 !! "--out" = Some (VStr out) ->
  isfile o out = true ->
  (d !! "--force" = None ->
   let s' := log (LogWarning (exists_message out)) s2 in
   parse_arguments pkg o (start d) = Raise (SystemExit None) s' /\
   main pkg o run_pipeline d = Raise (SystemExit None) s' /\
   trace s' = [LogWarning (exists_message out)]) /\
  (is_Some (d !! "--force") ->
   parse_arguments pkg o (start d) = Ok (arguments s2) s2 /\ trace s2 = []).
Proof.
  intros H1 H2 Hout Hfile.
  pose proof (force_kept _ _ _ _ _ H1 H2) as Hforce. simpl in Hforce.
  assert (Htrace : trace s2 = []).
  { now rewrite (silent_resolve_tools _ _ _ _ H2), (silent_prepare _ _ _ _ _ H1). }
  assert (Hsteps : parse_arguments pkg o (start d) =
                   (overwrite_guard o ;; get_arguments) s2).
  { unfold parse_arguments.
    now rewrite (bind_step_Ok _ _ _ _ _ H1), (bind_step_Ok _ _ _ _ _ H2). }
  split.
  - intros Habsent s'.
    assert (Hguard : overwrite_guard o s2 = Raise (SystemExit None) s').
    { rewrite overwrite_guard_eq, Hforce, Habsent, Hout, Hfile. reflexivity. }
    assert (Hparse : parse_arguments pkg o (start d) = Raise (SystemExit None) s').
    { rewrite Hsteps. now apply bind_step_Raise. }
    split; [exact Hparse|]. split.
    + unfold main, main_body. now apply bind_step_Raise.
    + subst s'. simpl. now rewrite Htrace.
  - intros [f Hf]. split; [|exact Htrace].
    rewrite Hsteps.
    assert (Hguard : overwrite_guard o s2 = Ok tt s2).
    { rewrite overwrite_guard_eq, Hforce, Hf. reflexivity. }
    now rewrite (bind_step_Ok _ _ _ _ _ Hguard).
Qed.

Lemma parse_arguments_steps pkg o s :
  parse_arguments pkg o s =
  match prepare pkg o s with
  | Raise e s1 => Raise e s1
  | Ok _ s1 =>
      match resolve_tools o s1 with
      | Raise e s2 => Raise e s2
      | Ok _ s2 =>
          match overwrite_guard o s2 with
          | Raise e s3 => Raise e s3
          | Ok _ s3 => Ok (arguments s3) s3
          end
      end
  end.
Proof. reflexivity. Qed.

Lemma parse_arguments_any_isfile pkg o f d :
  is_Some (d !! "--force") ->
  parse_arguments pkg (with_isfile o f) (start d) = parse_arguments pkg o (start d).
Proof.
  intros Hforce. rewrite !parse_arguments_steps.
  change (prepare pkg (with_isfile o f)) with (prepare pkg o).
  change (resolve_tools (with_isfile o f)) with (resolve_tools o).
  destruct (prepare pkg o (start d)) as [[] s1|e s1] eqn:H1; [|reflexivity].
  destruct (resolve_tools o s1) as [[] s2|e s2] eqn:H2; [|reflexivity].
  pose proof (force_kept _ _ _ _ _ H1 H2) as Hkept. simpl in Hkept.
  destruct Hforce as [v Hv].
  rewrite !overwrite_guard_eq, Hkept, Hv. reflexivity.
Qed.

(** C8. The mapping docopt returns always has the key '--force', mapped to
    a boolean. So the guard lets every state through that parse_arguments
    reaches from such a mapping, and whether files exist has no influence on
    parse_arguments or on main: an existing output file never stops the run,
    with or without --force. *)
Theorem force_key_always_present c :
  docopt c !! "--force" = Some (VBool (cl_force c)) /\
  (forall pkg o s1 s2,
      prepare pkg o (start (docopt c)) = Ok tt s1 ->
      resolve_tools o s1 = Ok tt s2 ->
      overwrite_guard o s2 = Ok tt s2) /\
  (forall pkg o f,
      parse_arguments pkg (with_isfile o f) (start (docopt c)) =
      parse_arguments pkg o (start (docopt c))) /\
  (forall pkg o f run_pipeline,
      main pkg (with_isfile o f) run_pipeline (docopt c) =
      main pkg o run_pipeline (docopt c)).
Proof.
  assert (Hforce : docopt c !! "--force" = Some (VBool (cl_force c)))
    by reflexivity.
  split; [exact Hforce|]. split; [|split].
  - intros pkg o s1 s2 H1 H2.
    rewrite overwrite_guard_eq, (force_kept _ _ _ _ _ H1 H2). simpl.
    now rewrite Hforce.
  - intros pkg o f. apply parse_arguments_any_isfile. eauto.
  - intros pkg o f run_pipeline. unfold main, main_body, bind.
    rewrite parse_arguments_any_isfile by eauto. reflexivity.
Qed.

(** ** main *)

Lemma run_present run_pipeline s :
  (forall k, k ∈ run_keys -> is_Some (arguments s !! k)) ->
  run run_pipeline s = call_run_pipeline run_pipeline (call_of (arguments s)) s.
Proof.
  intros H.
  assert (Hk : Forall (fun k => is_Some (arguments s !! k)) run_keys)
    by now apply Forall_forall.
  unfold run_keys in Hk.
  repeat match goal with
         | Hk : Forall _ (_ :: _) |- _ =>
             apply Forall_cons in Hk as [[? ?] Hk]
         end.
  unfold run, call_of, bind, getitem.
  repeat match goal with
         | E : arguments s !! ?k = Some _ |- context [arguments s !! ?k] =>
             rewrite !E; cbn beta iota
         end.
  reflexivity.
Qed.

Lemma call_run_pipeline_eq run_pipeline c s :
  call_run_pipeline run_pipeline c s =
  match run_pipeline c with
  | None => Ok tt (log (RunPipeline c) s)
  | Some e => Raise e (log (RunPipeline c) s)
  end.
Proof.
  unfold call_run_pipeline, bind, emit. now destruct (run_pipeline c).
Qed.

(** The call writes nothing but the record of the call and leaves the
    dictionary as it is; so do the except clauses, with their warning. *)
Lemma run_appends run_pipeline s :
  exists evs, appends (run run_pipeline s) s evs /\ CleanupTempFiles ∉ evs.
Proof.
  unfold run, bind, getitem.
  repeat (match goal with
          | |- context [arguments s !! ?k] =>
              destruct (arguments s !! k)
          end;
          [cbn beta iota
          | exists []; split; [split; [reflexivity | now rewrite app_nil_r]
                              | apply not_elem_of_nil]]).
  match goal with |- context [call_run_pipeline _ ?c s] => exists [RunPipeline c] end.
  rewrite call_run_pipeline_eq. split.
  - now destruct (run_pipeline _).
  - now intros [=]%list_elem_of_singleton.
Qed.

Lemma guarded_run_appends run_pipeline s :
  exists evs, appends (try_except (run run_pipeline) handlers s) s evs /\
              CleanupTempFiles ∉ evs.
Proof.
  destruct (run_appends run_pipeline s) as (evs & [Ha Ht] & Hno).
  unfold try_except.
  destruct (run run_pipeline s) as [[] s1|e s1]; simpl in Ha, Ht.
  - exists evs. now repeat split.
  - assert (Hwarn : forall text,
               exists evs',
                 appends ((emit (LogWarning text) ;; @sys_exit unit) s1) s evs' /\
                 CleanupTempFiles ∉ evs').
    { intros text. exists (evs ++ [LogWarning text]). repeat split; simpl.
      - exact Ha.
      - now rewrite Ht, app_assoc.
      - intros [?|[=]%list_elem_of_singleton]%elem_of_app. contradiction. }
    destruct e; simpl; try (exists evs; now repeat split); apply Hwarn.
Qed.

Lemma try_finally_final {A} (body : M A) (fin : M unit) s :
  final (try_finally body fin s) = final (fin (final (body s))).
Proof.
  unfold try_finally. destruct (body s) as [a s1|e s1]; simpl;
    now destruct (fin s1).
Qed.

Lemma cleanup_eq s :
  cleanup s =
  match arguments s !! "--no-cleanup" with
  | None => Raise (KeyError "--no-cleanup") s
  | Some v =>
      if truthy v
      then Ok tt (log (LogInfo "No cleanup requested, leaving the temp files.") s)
      else Ok tt (log CleanupTempFiles (log (LogInfo "Cleaning up temporary files.") s))
  end.
Proof.
  unfold cleanup, bind, getitem.
  destruct (arguments s !! "--no-cleanup") as [v|]; [|reflexivity].
  now destruct (truthy v).
Qed.

(** What main does once parse_arguments has returned. *)
Lemma main_after_parse pkg o run_pipeline d d' s1 dbg :
  parse_arguments pkg o (start d) = Ok d' s1 ->
  d' !! "--debug" = Some dbg ->
  main pkg o run_pipeline d =
  try_finally (try_except (run run_pipeline) handlers) cleanup
    {| arguments := d';
       trace := [InstallLogs (if truthy dbg then "DEBUG" else "INFO")] |}.
Proof.
  intros Hparse Hdbg.
  pose proof (parse_arguments_silent _ _ _ _ _ Hparse) as Htrace.
  pose proof (parse_arguments_Ok _ _ _ _ _ Hparse) as (? & ? & _ & _ & _ & ->).
  unfold main, main_body. rewrite (bind_step_Ok _ _ _ _ _ Hparse).
  unfold bind at 1. unfold getitem. rewrite Hdbg.
  unfold bind, emit, log. simpl in Htrace. rewrite Htrace. reflexivity.
Qed.

(** ** Cleanup *)

(** C4, as the code has it. Once parse_arguments has returned and the try
    block is entered, the finally clause runs whatever the pipeline does
    (returns, fails in a tool, is interrupted, raises anything else):
    cleanup_temp_files is called, once and last, unless --no-cleanup is
    set. The ways out of parse_arguments lie before the block. *)
Theorem cleanup_after_run pkg o run_pipeline d d' s1 dbg nc :
  parse_arguments pkg o (start d) = Ok d' s1 ->
  d' !! "--debug" = Some dbg ->
  d' !! "--no-cleanup" = Some nc ->
  let tr := trace (final (main pkg o run_pipeline d)) in
  (exists before, tr = before ++ cleanup_events (truthy nc) /\
                  CleanupTempFiles ∉ before) /\
  (CleanupTempFiles ∈ tr <-> truthy nc = false).
Proof.
  intros Hparse Hdbg Hnc tr.
  assert (Hshape : exists before, tr = before ++ cleanup_events (truthy nc) /\
                                  CleanupTempFiles ∉ before).
  { subst tr. rewrite (main_after_parse _ _ _ _ _ _ _ Hparse Hdbg).
    rewrite try_finally_final.
    match goal with
    | |- context [try_except _ _ ?s2] =>
        destruct (guarded_run_appends run_pipeline s2) as (evs & [Ha Ht] & Hno);
        set (sB := final (try_except (run run_pipeline) handlers s2)) in *
    end.
    simpl in Ha, Ht.
    exists ([InstallLogs (if truthy dbg then "DEBUG" else "INFO")] ++ evs).
    split.
    - rewrite cleanup_eq, Ha, Hnc. unfold cleanup_events.
      destruct (truthy nc); simpl; rewrite Ht; simpl.
      + reflexivity.
      + now rewrite <- app_assoc.
    - intros [[=]%list_elem_of_singleton|?]%elem_of_app. contradiction. }
  split; [exact Hshape|].
  destruct Hshape as (before & -> & Hno). unfold cleanup_events.
  destruct (truthy nc); split; try easy.
  - intros [?|[=]%list_elem_of_singleton]%elem_of_app. contradiction.
  - intros _. apply elem_of_app. right. right. left.
Qed.

(** C4 as stated fails: --version ends the program from within
    parse_arguments, before the try block, and nothing is cleaned up. *)
Lemma cleanup_counterexample :
  main Sample.pkg (Sample.os_with false) Sample.succeeds (docopt Sample.version_cl) =
  Raise (SystemExit None)
    {| arguments := docopt Sample.version_cl;
       trace := [Print (version_message Sample.pkg)] |} /\
  ~ cleanup_as_stated.
Proof.
  assert (E : main Sample.pkg (Sample.os_with false) Sample.succeeds
                (docopt Sample.version_cl) =
              Raise (SystemExit None)
                {| arguments := docopt Sample.version_cl;
                   trace := [Print (version_message Sample.pkg)] |})
    by reflexivity.
  split; [exact E|].
  intros H.
  specialize (H Sample.pkg (Sample.os_with false) Sample.succeeds
                Sample.version_cl eq_refl).
  rewrite E in H. simpl in H.
  apply list_elem_of_singleton in H. discriminate H.
Qed.

(** ** External-process failure *)

Lemma docopt_parsed pkg o c d' s1 :
  parse_arguments pkg o (start (docopt c)) = Ok d' s1 ->
  (forall k, k ∈ run_keys -> is_Some (d' !! k)) /\
  d' !! "--debug" = Some (VBool (cl_debug c)) /\
  d' !! "--no-cleanup" = Some (VBool (cl_no_cleanup c)).
Proof.
  intros Hparse.
  pose proof (parse_arguments_Ok _ _ _ _ _ Hparse) as (? & ? & _ & _ & _ & ->).
  split; [|split].
  - intros k Hk.
    pose proof (touches_keeps _ _ (start (docopt c)) k
                  (touches_parse_arguments pkg o)) as Hkeep.
    rewrite Hparse in Hkeep. apply Hkeep. unfold run_keys in Hk.
    repeat (apply elem_of_cons in Hk as [->|Hk]; [eexists; reflexivity|]).
    now apply elem_of_nil in Hk.
  - rewrite (touches_Ok _ _ _ _ _ "--debug" (touches_parse_arguments pkg o) Hparse)
      by (vm_compute; not_in_list).
    reflexivity.
  - rewrite (touches_Ok _ _ _ _ _ "--no-cleanup" (touches_parse_arguments pkg o) Hparse)
      by (vm_compute; not_in_list).
    reflexivity.
Qed.

Lemma failure_message_shows (returncode : Z) (cmd : string) :
  occurs cmd (failure_message returncode cmd) /\
  occurs (Str.of_Z returncode) (failure_message returncode cmd).
Proof.
  unfold occurs, failure_message. split.
  - exists ("The following command failed (code: " +:+ Str.of_Z returncode
            +:+ "). Cleanup and exit: "), "".
    now rewrite sapp_nil_r, !sapp_assoc.
  - now exists "The following command failed (code: ",
                ("). Cleanup and exit: " +:+ cmd).
Qed.

(** C5. When the pipeline raises CalledProcessError with a return code and
    a command, main catches it in its one except clause for it, logs one
    warning in which the command and the code can be read, runs the finally
    clause and leaves through sys.exit(): the pipeline was called once, is
    not called again, and nothing else is reported. *)
Theorem process_failure_is_fatal pkg o run_pipeline c d' s1 returncode cmd :
  parse_arguments pkg o (start (docopt c)) = Ok d' s1 ->
  run_pipeline (call_of d') = Some (CalledProcessError returncode cmd) ->
  main pkg o run_pipeline (docopt c) =
  Raise (SystemExit None)
    {| arguments := d';
       trace := [InstallLogs (if cl_debug c then "DEBUG" else "INFO");
                 RunPipeline (call_of d');
                 LogWarning (failure_message returncode cmd)]
                  ++ cleanup_events (cl_no_cleanup c) |} /\
  occurs cmd (failure_message returncode cmd) /\
  occurs (Str.of_Z returncode) (failure_message returncode cmd).
Proof.
  intros Hparse Hfail.
  destruct (docopt_parsed _ _ _ _ _ Hparse) as (Hkeys & Hdbg & Hnc).
  split; [|apply failure_message_shows].
  rewrite (main_after_parse _ _ _ _ _ _ _ Hparse Hdbg). simpl truthy.
  unfold try_finally, try_except.
  rewrite run_present by exact Hkeys.
  rewrite call_run_pipeline_eq. simpl arguments. rewrite Hfail.
  simpl handlers. unfold bind, emit, sys_exit, raise.
  rewrite cleanup_eq. simpl arguments. rewrite Hnc. simpl truthy.
  unfold cleanup_events. now destruct (cl_no_cleanup c).
Qed.

(** ** Exit status *)

Lemma plain_ret {A} (a : A) : exits_plainly (ret a).
Proof. intros s code s' [=]. Qed.

Lemma plain_raise {A} (e : exn) :
  (forall code, e = SystemExit code -> code = None) -> exits_plainly (@raise A e).
Proof. intros H s code s' [= -> _]. now apply H. Qed.

Lemma plain_emit ev : exits_plainly (emit ev).
Proof. intros s code s' [=]. Qed.

Lemma plain_getitem k : exits_plainly (getitem k).
Proof.
  intros s code s'. unfold getitem. now destruct (arguments s !! k).
Qed.

Lemma plain_setitem k v : exits_plainly (setitem k v).
Proof. intros s code s' [=]. Qed.

Lemma plain_contains k : exits_plainly (contains k).
Proof. intros s code s' [=]. Qed.

Lemma plain_get_arguments : exits_plainly get_arguments.
Proof. intros s code s' [=]. Qed.

Lemma plain_bind {A B} (m : M A) (k : A -> M B) :
  exits_plainly m -> (forall a, exits_plainly (k a)) -> exits_plainly (bind m k).
Proof.
  intros Hm Hk s code s' [H|(a & s1 & _ & H)]%bind_Raise.
  - exact (Hm _ _ _ H).
  - exact (Hk _ _ _ _ H).
Qed.

Lemma plain_for_each {A} (l : list A) (body : A -> M unit) :
  (forall x, exits_plainly (body x)) -> exits_plainly (for_each l body).
Proof.
  intros H. induction l as [|x l IH]; simpl.
  - apply plain_ret.
  - apply plain_bind; auto.
Qed.

Lemma plain_try_except {A} (body : M A) (handler : exn -> option (M A)) :
  exits_plainly body ->
  (forall e h, handler e = Some h -> exits_plainly h) ->
  exits_plainly (try_except body handler).
Proof.
  intros Hb Hh s code s'. unfold try_except.
  destruct (body s) as [a s1|e s1] eqn:E; [discriminate|].
  destruct (handler e) as [h|] eqn:Eh.
  - apply (Hh _ _ Eh).
  - intros [= -> ->]. eapply Hb, E.
Qed.

Lemma plain_try_finally {A} (body : M A) (fin : M unit) :
  exits_plainly body -> exits_plainly fin -> exits_plainly (try_finally body fin).
Proof.
  intros Hb Hf s code s'. unfold try_finally.
  destruct (body s) as [a s1|e s1] eqn:E;
    destruct (fin s1) as [[] s2|e2 s2] eqn:E2; try discriminate.
  - intros [= -> ->]. eapply Hf, E2.
  - intros [= -> ->]. eapply Hb, E.
  - intros [= -> ->]. eapply Hf, E2.
Qed.

Ltac plain :=
  repeat first
    [ apply plain_ret | apply plain_emit | apply plain_getitem
    | apply plain_setitem | apply plain_contains | apply plain_get_arguments
    | apply plain_raise; congruence
    | apply plain_bind; [|intros ?]
    | match goal with
      | |- exits_plainly (if ?b then _ else _) => destruct b
      | |- exits_plainly (match ?x with _ => _ end) => destruct x
      end ].

Lemma plain_prepare pkg o : exits_plainly (prepare pkg o).
Proof.
  unfold prepare, check_version, set_threads, default_out, add_suffixes,
    py_int, iterate, endswith, add_str, sys_exit.
  plain.
Qed.

Lemma plain_resolve_tools o : exits_plainly (resolve_tools o).
Proof.
  apply plain_for_each. intros t. unfold resolve_tool, sys_exit. plain.
Qed.

Lemma plain_overwrite_guard o : exits_plainly (overwrite_guard o).
Proof. unfold overwrite_guard, is_file, sys_exit. plain. Qed.

Lemma plain_parse_arguments pkg o : exits_plainly (parse_arguments pkg o).
Proof.
  unfold parse_arguments.
  apply plain_bind; [apply plain_prepare | intros _].
  apply plain_bind; [apply plain_resolve_tools | intros _].
  apply plain_bind; [apply plain_overwrite_guard | intros _].
  apply plain_get_arguments.
Qed.

Lemma plain_run run_pipeline :
  (forall c k, run_pipeline c <> Some (SystemExit (Some k))) ->
  exits_plainly (run run_pipeline).
Proof.
  intros Hrp. unfold run.
  repeat (apply plain_bind; [apply plain_getitem | intros ?]).
  unfold call_run_pipeline.
  apply plain_bind; [apply plain_emit | intros _].
  match goal with |- context [run_pipeline ?c] =>
    destruct (run_pipeline c) as [e|] eqn:E; [|apply plain_ret];
    pose proof (Hrp c) as Hc
  end.
  apply plain_raise. intros [k|] ->; [|reflexivity].
  exfalso. now apply (Hc k).
Qed.

Lemma plain_handlers e h : handlers e = Some h -> exits_plainly h.
Proof.
  destruct e; simpl; intros [= <-]; unfold sys_exit; plain.
Qed.

Lemma plain_cleanup : exits_plainly cleanup.
Proof. unfold cleanup. plain. Qed.

Lemma plain_main_body pkg o run_pipeline :
  (forall c k, run_pipeline c <> Some (SystemExit (Some k))) ->
  exits_plainly (main_body pkg o run_pipeline).
Proof.
  intros Hrp. unfold main_body.
  apply plain_bind; [apply plain_parse_arguments | intros _].
  apply plain_bind; [apply plain_getitem | intros dbg].
  apply plain_bind; [apply plain_emit | intros _].
  apply plain_try_finally; [|apply plain_cleanup].
  apply plain_try_except; [now apply plain_run | apply plain_handlers].
Qed.

(** C7. Every sys.exit() of the script is called without a code: on
    --version, on a missing tool path, on an existing output without the
    force key, on a user interrupt and on an external-process failure. So
    whenever parse_arguments or main leaves through SystemExit there is no
    code, and the status is 0, the same as after a run that went through. *)
Theorem exits_without_code pkg o run_pipeline d :
  (forall code s',
      parse_arguments pkg o (start d) = Raise (SystemExit code) s' ->
      code = None) /\
  ((forall c k, run_pipeline c <> Some (SystemExit (Some k))) ->
   forall code s',
     main pkg o run_pipeline d = Raise (SystemExit code) s' ->
     code = None /\
     exit_status (raised (main pkg o run_pipeline d)) = exit_status None) /\
  (forall s v,
      arguments s !! "--version" = Some v -> truthy v = true ->
      exists s', check_version pkg s = Raise (SystemExit None) s') /\
  (forall s t v,
      arguments s !! parameter_of t = Some v -> truthy v = false ->
      environ o !! env_varname_of t = None ->
      exists s', resolve_tool o t s = Raise (SystemExit None) s') /\
  (forall s out,
      arguments s !! "--force" = None ->
      arguments s !! "--out" = Some (VStr out) -> isfile o out = true ->
      exists s', overwrite_guard o s = Raise (SystemExit None) s') /\
  (forall s, exists h s',
      handlers KeyboardInterrupt = Some h /\ h s = Raise (SystemExit None) s') /\
  (forall returncode cmd s, exists h s',
      handlers (CalledProcessError returncode cmd) = Some h /\
      h s = Raise (SystemExit None) s').
Proof.
  split; [|split; [|split; [|split; [|split; [|split]]]]].
  - intros code s'. apply plain_parse_arguments.
  - intros Hrp code s' Hmain.
    assert (code = None) as -> by exact (plain_main_body _ _ _ Hrp _ _ _ Hmain).
    split; [reflexivity|]. now rewrite Hmain.
  - intros s v Hv Ht. rewrite check_version_eq, Hv, Ht. eauto.
  - intros s t v Hv Ht He. rewrite resolve_tool_eq, Hv, Ht, He. eauto.
  - intros s out Hf Hout Hfile.
    rewrite overwrite_guard_eq, Hf, Hout, Hfile. eauto.
  - intros s. eexists _, _. split; reflexivity.
  - intros returncode cmd s. eexists _, _. split; reflexivity.
Qed.

(** ** The properties at the sample invocation *)

Lemma overwrite_guard_key_absence_witness :
  raised (main Sample.pkg (Sample.os_with true) Sample.succeeds Sample.no_force)
  = Some (SystemExit None) /\
  trace (final (main Sample.pkg (Sample.os_with true) Sample.succeeds Sample.no_force))
  = [LogWarning (exists_message "/home/user/a__b.vcf.gz")].
Proof.
  pose (s1 := final (prepare Sample.pkg (Sample.os_with true) (start Sample.no_force))).
  pose (s2 := final (resolve_tools (Sample.os_with true) s1)).
  destruct (overwrite_guard_key_absence Sample.pkg (Sample.os_with true)
              Sample.succeeds Sample.no_force s1 s2 "/home/user/a__b.vcf.gz")
    as [Habsent _].
  - vm_compute. reflexivity.
  - vm_compute. reflexivity.
  - vm_compute. reflexivity.
  - reflexivity.
  - destruct Habsent as (_ & Hmain & Htrace); [vm_compute; reflexivity|].
    rewrite Hmain. split; [reflexivity | exact Htrace].
Defined.

Lemma derived_out_path_witness :
  exists d' s',
    parse_arguments Sample.pkg (Sample.os_with false) (start (docopt Sample.cl))
    = Ok d' s' /\
    d' !! "--out" = Some (VStr "/home/user/a__b.vcf.gz").
Proof.
  pose (r := parse_arguments Sample.pkg (Sample.os_with false)
               (start (docopt Sample.cl))).
  assert (E : r = Ok (arguments (final r)) (final r)) by (vm_compute; reflexivity).
  exists (arguments (final r)), (final r). split; [exact E|].
  destruct (derived_out_path Sample.pkg (Sample.os_with false) (docopt Sample.cl)
              ["a.bed"; "b.bed"] VNone (VBool false)
              eq_refl eq_refl eq_refl eq_refl) as (_ & H & _).
  exact (H _ _ E).
Defined.

Lemma tool_paths_resolved_witness :
  raised (main Sample.pkg Sample.only_bcftools_os Sample.succeeds (docopt Sample.cl))
  = Some (SystemExit None) /\
  trace (final (main Sample.pkg Sample.only_bcftools_os Sample.succeeds
                  (docopt Sample.cl)))
  = [Print "Missing either --path-to-tabix or ENV variable PATH_TO_TABIX"].
Proof.
  pose (s1 := final (prepare Sample.pkg Sample.only_bcftools_os
                       (start (docopt Sample.cl)))).
  destruct (tool_paths_resolved Sample.pkg Sample.only_bcftools_os Sample.succeeds
              (docopt Sample.cl) s1) as (_ & _ & Hmissing).
  - vm_compute. reflexivity.
  - destruct (Hmissing ["bcftools"] "tabix"
                ["bgzip"; "gatk3"; "java"; "reference_fasta"] VNone)
      as (_ & _ & s' & _ & Hmain & Htrace).
    + reflexivity.
    + intros t' ->%list_elem_of_singleton. vm_compute. eauto.
    + reflexivity.
    + reflexivity.
    + reflexivity.
    + rewrite Hmain. split; [reflexivity | exact Htrace].
Defined.

Lemma cleanup_after_run_witness :
  CleanupTempFiles ∈
    trace (final (main Sample.pkg (Sample.os_with false) Sample.fails
                    (docopt Sample.cl))).
Proof.
  pose (r := parse_arguments Sample.pkg (Sample.os_with false)
               (start (docopt Sample.cl))).
  assert (E : r = Ok (arguments (final r)) (final r)) by (vm_compute; reflexivity).
  destruct (cleanup_after_run Sample.pkg (Sample.os_with false) Sample.fails
              (docopt Sample.cl) (arguments (final r)) (final r)
              (VBool false) (VBool false) E) as [_ Hiff].
  - vm_compute. reflexivity.
  - vm_compute. reflexivity.
  - apply Hiff. reflexivity.
Defined.

Lemma process_failure_is_fatal_witness :
  exists call,
    raised (main Sample.pkg (Sample.os_with false) Sample.fails (docopt Sample.cl))
    = Some (SystemExit None) /\
    trace (final (main Sample.pkg (Sample.os_with false) Sample.fails
                    (docopt Sample.cl)))
    = [InstallLogs "INFO"; RunPipeline call;
       LogWarning
         "The following command failed (code: 2). Cleanup and exit: tabix -h ftp://example chr1:1-100";
       LogInfo "Cleaning up temporary files."; CleanupTempFiles].
Proof.
  pose (r := parse_arguments Sample.pkg (Sample.os_with false)
               (start (docopt Sample.cl))).
  assert (E : r = Ok (arguments (final r)) (final r)) by (vm_compute; reflexivity).
  destruct (process_failure_is_fatal Sample.pkg (Sample.os_with false) Sample.fails
              Sample.cl (arguments (final r)) (final r) 2
              "tabix -h ftp://example chr1:1-100" E eq_refl) as (Hmain & _).
  exists (call_of (arguments (final r))). rewrite Hmain. split; reflexivity.
Defined.

Lemma thread_count_parsed_witness :
  set_threads (start Sample.threads8) =
  Ok tt (set_arg "--threads" (VInt 8) (start Sample.threads8)) /\
  exists d' s',
    parse_arguments Sample.pkg (Sample.os_with false) (start Sample.threads8)
    = Ok d' s' /\
    d' !! "--threads" = Some (VInt 8).
Proof.
  pose (r := parse_arguments Sample.pkg (Sample.os_with false)
               (start Sample.threads8)).
  assert (E : r = Ok (arguments (final r)) (final r)) by (vm_compute; reflexivity).
  pose proof (thread_count_parsed Sample.pkg (Sample.os_with false) Sample.succeeds
                Sample.threads8 (VBool false) (Some "8")) as H.
  assert (E8 : spec_thread_count (Some "8") = Some 8) by reflexivity.
  rewrite E8 in H. destruct H as [Hset Hparse].
  - vm_compute. reflexivity.
  - reflexivity.
  - vm_compute. reflexivity.
  - discriminate.
  - split; [exact Hset|].
    exists (arguments (final r)), (final r). split; [exact E|].
    exact (Hparse _ _ E).
Defined.

Lemma exits_without_code_witness :
  exit_status (raised (main Sample.pkg (Sample.os_with false) Sample.interrupted
                         (docopt Sample.cl))) = 0.
Proof.
  pose (r := main Sample.pkg (Sample.os_with false) Sample.interrupted
               (docopt Sample.cl)).
  assert (E : r = Raise (SystemExit None) (final r)) by (vm_compute; reflexivity).
  destruct (exits_without_code Sample.pkg (Sample.os_with false) Sample.interrupted
              (docopt Sample.cl)) as (_ & Hmain & _).
  destruct (Hmain ltac:(discriminate) None (final r) E) as [_ Hstatus].
  exact Hstatus.
Defined.

Lemma force_key_always_present_witness :
  main Sample.pkg (Sample.os_with true) Sample.succeeds (docopt Sample.cl) =
  main Sample.pkg (Sample.os_with false) Sample.succeeds (docopt Sample.cl).
Proof.
  destruct (force_key_always_present Sample.cl) as (_ & _ & _ & Hmain).
  exact (Hmain Sample.pkg (Sample.os_with false) (fun _ => true) Sample.succeeds).
Defined.

Lemma out_suffix_witness :
  exists d' s' out,
    parse_arguments Sample.pkg (Sample.os_with false) (start Sample.out_given)
    = Ok d' s' /\
    d' !! "--out" = Some (VStr out) /\
    Str.endswith out ".vcf.gz.vcf.gz" = true.
Proof.
  pose (r := parse_arguments Sample.pkg (Sample.os_with false)
               (start Sample.out_given)).
  assert (E : r = Ok (arguments (final r)) (final r)) by (vm_compute; reflexivity).
  destruct (out_suffix Sample.pkg (Sample.os_with false) Sample.out_given
              (VBool false) (arguments (final r)) (final r))
    as (out & Hout & _ & _ & Hdouble).
  - vm_compute. reflexivity.
  - exact E.
  - exists (arguments (final r)), (final r), out.
    split; [exact E|]. split; [exact Hout|].
    destruct (Hdouble "x") as (_ & Hends & _); [vm_compute; reflexivity|].
    now apply Hends.
Defined.

Lemma bed_removed_everywhere_witness :
  default_out (Sample.os_with false)
    (start (docopt (Sample.with_in ["regions/my.bedfile.bed"; "x.bed.bed"] Sample.cl)))
  = Ok tt (set_arg "--out" (VStr "/home/user/myfile__x")
             (start (docopt (Sample.with_in ["regions/my.bedfile.bed"; "x.bed.bed"]
                               Sample.cl)))).
Proof.
  destruct bed_removed_everywhere as (_ & _ & _ & _ & _ & H).
  exact (H (Sample.os_with false)
           (start (docopt (Sample.with_in ["regions/my.bedfile.bed"; "x.bed.bed"]
                             Sample.cl)))
           ["regions/my.bedfile.bed"; "x.bed.bed"] eq_refl eq_refl).
Defined.


(** * Further properties of parse_arguments and main *)

(** ** The version flag *)

(** X1. With a true '--version', parse_arguments prints the version message
    and leaves at once: nothing else of the mapping is read or changed, so
    neither a bad thread count nor a missing tool path is noticed, and main
    ends there. *)
Theorem version_short_circuit pkg o run_pipeline d v :
  d !! "--version" = Some v -> truthy v = true ->
  let stopped := {| arguments := d; trace := [Print (version_message pkg)] |} in
  parse_arguments pkg o (start d) = Raise (SystemExit None) stopped /\
  main pkg o run_pipeline d = Raise (SystemExit None) stopped.
Proof.
  intros Hv Ht stopped.
  assert (Hcheck : check_version pkg (start d) = Raise (SystemExit None) stopped).
  { rewrite check_version_eq. simpl arguments. now rewrite Hv, Ht. }
  assert (Hparse : parse_arguments pkg o (start d) = Raise (SystemExit None) stopped).
  { unfold parse_arguments, prepare. now do 2 apply bind_step_Raise. }
  split; [exact Hparse|].
  unfold main, main_body. now apply bind_step_Raise.
Qed.

Lemma version_short_circuit_witness :
  main Sample.pkg Sample.bare_os Sample.succeeds
    (<["--threads" := VStr "many"]> (docopt Sample.version_cl)) =
  Raise (SystemExit None)
    {| arguments := <["--threads" := VStr "many"]> (docopt Sample.version_cl);
       trace := [Print (version_message Sample.pkg)] |}.
Proof.
  apply (version_short_circuit Sample.pkg Sample.bare_os Sample.succeeds
           (<["--threads" := VStr "many"]> (docopt Sample.version_cl))
           (VBool true)).
  - vm_compute. reflexivity.
  - reflexivity.
Defined.

(** ** What parse_arguments hands back *)

Lemma set_threads_integer s sb :
  set_threads s = Ok tt sb -> exists n, arguments sb !! "--threads" = Some (VInt n).
Proof.
  rewrite set_threads_eq.
  destruct (arguments s !! "--threads") as [v|]; [|discriminate].
  destruct (truthy v).
  - destruct v as [|b|n|t|l]; simpl; try discriminate.
    + intros [= <-]. eexists. apply lookup_insert_eq.
    + intros [= <-]. eexists. apply lookup_insert_eq.
    + destruct (PyInt.parse t) as [n|]; [|discriminate].
      intros [= <-]. eexists. apply lookup_insert_eq.
  - intros [= <-]. eexists. apply lookup_insert_eq.
Qed.

(** X2. When parse_arguments returns, it hands back the dictionary it was
    given and has changed in place, it has printed and logged nothing, and
    '--threads' holds an integer: the text of the flag never reaches the
    pipeline. *)
Theorem returned_mapping pkg o d d' s' :
  parse_arguments pkg o (start d) = Ok d' s' ->
  d' = arguments s' /\
  trace s' = [] /\
  exists n, d' !! "--threads" = Some (VInt n).
Proof.
  intros Hparse.
  pose proof (parse_arguments_silent _ _ _ _ _ Hparse) as Htrace.
  pose proof (parse_arguments_Ok _ _ _ _ _ Hparse) as (s1 & s2 & H1 & _ & _ & Hd).
  split; [exact Hd|]. split; [exact Htrace|].
  apply prepare_Ok in H1 as (sb & sc & Hcheck & Hset & _ & _).
  destruct (set_threads_integer _ _ Hset) as [n Hn].
  exists n. eapply threads_after_set; eauto.
Qed.

Lemma returned_mapping_witness :
  exists d' s',
    parse_arguments Sample.pkg (Sample.os_with false) (start Sample.threads8)
    = Ok d' s' /\
    d' = arguments s' /\ trace s' = [] /\
    exists n, d' !! "--threads" = Some (VInt n).
Proof.
  pose (r := parse_arguments Sample.pkg (Sample.os_with false)
               (start Sample.threads8)).
  assert (E : r = Ok (arguments (final r)) (final r)) by (vm_compute; reflexivity).
  exists (arguments (final r)), (final r). split; [exact E|].
  exact (returned_mapping Sample.pkg (Sample.os_with false) Sample.threads8 _ _ E).
Defined.

(** X3. Any value of '--threads' that Python takes for false gives the
    default of 6: not only None but also an empty text, which is therefore
    no parse error. *)
Theorem threads_default_on_falsy pkg o d ver v :
  d !! "--version" = Some ver -> truthy ver = false ->
  d !! "--threads" = Some v -> truthy v = false ->
  set_threads (start d) = Ok tt (set_arg "--threads" (VInt 6) (start d)) /\
  forall d' s', parse_arguments pkg o (start d) = Ok d' s' ->
                d' !! "--threads" = Some (VInt 6).
Proof.
  intros Hver Hfalse Hv Ht.
  assert (Hset : set_threads (start d) =
                 Ok tt (set_arg "--threads" (VInt 6) (start d))).
  { rewrite set_threads_eq. simpl arguments. now rewrite Hv, Ht. }
  split; [exact Hset|]. intros d' s' Hparse.
  eapply threads_after_set; eauto.
  - apply lookup_insert_eq.
  - rewrite check_version_eq. simpl arguments. now rewrite Hver, Hfalse.
Qed.

Lemma threads_default_on_falsy_witness :
  exists d' s',
    parse_arguments Sample.pkg (Sample.os_with false)
      (start (<["--threads" := VStr ""]> (docopt Sample.cl))) = Ok d' s' /\
    d' !! "--threads" = Some (VInt 6).
Proof.
  pose (r := parse_arguments Sample.pkg (Sample.os_with false)
               (start (<["--threads" := VStr ""]> (docopt Sample.cl)))).
  assert (E : r = Ok (arguments (final r)) (final r)) by (vm_compute; reflexivity).
  exists (arguments (final r)), (final r). split; [exact E|].
  destruct (threads_default_on_falsy Sample.pkg (Sample.os_with false)
              (<["--threads" := VStr ""]> (docopt Sample.cl))
              (VBool false) (VStr "")) as [_ H].
  - vm_compute. reflexivity.
  - reflexivity.
  - vm_compute. reflexivity.
  - reflexivity.
  - exact (H _ _ E).
Defined.

(** ** A given output path *)

(** X4. A given '--out' is taken as written: the inputs and the working
    directory play no part. '.vcf' is added unless the path ends in it,
    '.gz' unless --unzipped is set, so a path ending in '.vcf' is kept
    unchanged with --unzipped. *)
Theorem explicit_out_path pkg o d p u d' s' :
  d !! "--out" = Some (VStr p) -> p <> "" ->
  d !! "--unzipped" = Some u ->
  parse_arguments pkg o (start d) = Ok d' s' ->
  d' !! "--out" =
  Some (VStr ((p +:+ (if Str.endswith p ".vcf" then "" else ".vcf"))
                +:+ (if truthy u then "" else ".gz"))) /\
  (Str.endswith p ".vcf" = true -> truthy u = true -> d' !! "--out" = Some (VStr p)).
Proof.
  intros Hout Hne Hu Hparse.
  destruct (parse_arguments_out _ _ _ _ _ Hparse)
    as (p' & u' & Hu' & Hres & Hgiven & _).
  simpl in Hu', Hgiven. rewrite Hu in Hu'. injection Hu' as <-.
  assert (Ht : truthy (VStr p) = true).
  { simpl. now destruct (String.eqb_spec p ""). }
  specialize (Hgiven _ Hout Ht). injection Hgiven as <-.
  unfold with_gz, with_vcf in Hres. split.
  - rewrite Hres.
    destruct (Str.endswith p ".vcf"), (truthy u); now rewrite ?sapp_nil_r.
  - intros He Htu. now rewrite Hres, He, Htu.
Qed.

Lemma explicit_out_path_witness :
  exists d' s',
    parse_arguments Sample.pkg (Sample.os_with false)
      (start (<["--unzipped" := VBool true]>
                (<["--out" := VStr "results/calls.vcf"]> (docopt Sample.cl))))
    = Ok d' s' /\
    d' !! "--out" = Some (VStr "results/calls.vcf").
Proof.
  pose (d := <["--unzipped" := VBool true]>
               (<["--out" := VStr "results/calls.vcf"]> (docopt Sample.cl))).
  pose (r := parse_arguments Sample.pkg (Sample.os_with false) (start d)).
  assert (E : r = Ok (arguments (final r)) (final r)) by (vm_compute; reflexivity).
  exists (arguments (final r)), (final r). split; [exact E|].
  destruct (explicit_out_path Sample.pkg (Sample.os_with false) d
              "results/calls.vcf" (VBool true) _ _
              ltac:(vm_compute; reflexivity) ltac:(discriminate)
              ltac:(vm_compute; reflexivity) E) as [_ H].
  apply H; reflexivity.
Defined.

(** ** Tool paths given on the command line *)

Lemma resolve_tools_given o l s :
  (forall t, t ∈ l -> exists v, arguments s !! parameter_of t = Some v /\
                                truthy v = true) ->
  for_each l (resolve_tool o) s = Ok tt s.
Proof.
  induction l as [|x l IH]; intros H; [reflexivity|].
  simpl. destruct (H x) as (v & Hv & Ht); [left|].
  assert (Hx : resolve_tool o x s = Ok tt s)
    by now rewrite resolve_tool_eq, Hv, Ht.
  rewrite (bind_step_Ok _ _ _ _ _ Hx). apply IH. intros t Hin. apply H. now right.
Qed.

Lemma prepare_cwd pkg o o' :
  getcwd o = getcwd o' -> prepare pkg o = prepare pkg o'.
Proof. intros H. unfold prepare, default_out. now rewrite H. Qed.

Lemma overwrite_guard_isfile o o' s :
  (forall p, isfile o p = isfile o' p) ->
  overwrite_guard o s = overwrite_guard o' s.
Proof.
  intros H. rewrite !overwrite_guard_eq.
  destruct (arguments s !! "--force"); [reflexivity|].
  destruct (arguments s !! "--out") as [[|b|n|p|l]|]; try reflexivity.
  now rewrite H.
Qed.

(** X5. When all six tool paths are given as flags, the environment
    variables are never looked at: two environments that differ only in
    their variables give the same parse_arguments and the same main, and
    the flags come back as they were given. *)
Theorem flags_shadow_environment pkg o o' run_pipeline d :
  getcwd o = getcwd o' ->
  (forall p, isfile o p = isfile o' p) ->
  (forall t, t ∈ varnames ->
             exists v, d !! parameter_of t = Some v /\ truthy v = true) ->
  parse_arguments pkg o (start d) = parse_arguments pkg o' (start d) /\
  main pkg o run_pipeline d = main pkg o' run_pipeline d /\
  (forall d' s', parse_arguments pkg o (start d) = Ok d' s' ->
                 forall t, t ∈ varnames -> d' !! parameter_of t = d !! parameter_of t).
Proof.
  intros Hcwd Hfile Hflags.
  assert (Hparse : parse_arguments pkg o (start d) = parse_arguments pkg o' (start d)).
  { rewrite !parse_arguments_steps, (prepare_cwd pkg o o' Hcwd).
    destruct (prepare pkg o' (start d)) as [[] s1|e s1] eqn:H1; [|reflexivity].
    assert (Hs1 : forall t, t ∈ varnames ->
                    exists v, arguments s1 !! parameter_of t = Some v /\
                              truthy v = true).
    { intros t Ht.
      rewrite (touches_Ok _ _ _ _ _ _ (touches_prepare pkg o') H1)
        by now apply parameter_not_prepared.
      now apply Hflags. }
    unfold resolve_tools.
    rewrite !(resolve_tools_given _ varnames s1 Hs1).
    now rewrite (overwrite_guard_isfile o o' s1 Hfile). }
  split; [exact Hparse|]. split.
  - unfold main, main_body, bind. now rewrite Hparse.
  - intros d' s' Hok t Ht.
    pose proof (parse_arguments_Ok _ _ _ _ _ Hok) as (s1 & s2 & H1 & H2 & H3 & ->).
    destruct (for_each_tools_Ok o varnames s1 s2 parameters_distinct H2 t Ht)
      as [Hval _].
    rewrite (resolved_tool_prepared _ _ _ _ _ H1 Ht) in Hval.
    rewrite (touches_Ok [] _ _ _ _ _ (touches_overwrite_guard o []) H3)
      by apply not_elem_of_nil.
    rewrite Hval. unfold resolved_tool. simpl arguments.
    destruct (Hflags t Ht) as (v & Hv & Htv). now rewrite Hv, Htv.
Qed.

Lemma flags_shadow_environment_witness :
  parse_arguments Sample.pkg Sample.bare_os (start Sample.with_tools) =
  parse_arguments Sample.pkg (Sample.os_with false) (start Sample.with_tools).
Proof.
  apply (flags_shadow_environment Sample.pkg Sample.bare_os (Sample.os_with false)
           Sample.succeeds Sample.with_tools).
  - reflexivity.
  - reflexivity.
  - unfold varnames. intros t Ht.
    repeat (apply elem_of_cons in Ht as [->|Ht];
            [eexists; split; [vm_compute; reflexivity | reflexivity]|]).
    now apply elem_of_nil in Ht.
Defined.

(** ** The ways through main *)

Lemma docopt_call pkg o c d' s1 :
  parse_arguments pkg o (start (docopt c)) = Ok d' s1 ->
  bedfiles (call_of d') = VList (cl_in c) /\
  dry_run (call_of d') = VBool (cl_dry_run c) /\
  gzip_output (call_of d') = negb (cl_unzipped c).
Proof.
  intros Hparse.
  pose proof (parse_arguments_Ok _ _ _ _ _ Hparse) as (? & ? & _ & _ & _ & ->).
  unfold call_of. simpl.
  rewrite (touches_Ok _ _ _ _ _ "--in" (touches_parse_arguments pkg o) Hparse)
    by (vm_compute; not_in_list).
  rewrite (touches_Ok _ _ _ _ _ "--dry-run" (touches_parse_arguments pkg o) Hparse)
    by (vm_compute; not_in_list).
  rewrite (touches_Ok _ _ _ _ _ "--unzipped" (touches_parse_arguments pkg o) Hparse)
    by (vm_compute; not_in_list).
  repeat split.
Qed.

(** X6. A run that goes through: after parse_arguments has returned, main
    installs the logs at DEBUG with --debug and at INFO without, calls the
    pipeline once with the resolved mapping (the inputs and --dry-run as
    given, gzip_output the opposite of --unzipped), runs the finally clause
    and returns; nothing is logged as a warning. *)
Theorem successful_run pkg o run_pipeline c d' s1 :
  parse_arguments pkg o (start (docopt c)) = Ok d' s1 ->
  run_pipeline (call_of d') = None ->
  main pkg o run_pipeline (docopt c) =
  Ok tt {| arguments := d';
           trace := [InstallLogs (if cl_debug c then "DEBUG" else "INFO");
                     RunPipeline (call_of d')]
                      ++ cleanup_events (cl_no_cleanup c) |} /\
  bedfiles (call_of d') = VList (cl_in c) /\
  dry_run (call_of d') = VBool (cl_dry_run c) /\
  gzip_output (call_of d') = negb (cl_unzipped c).
Proof.
  intros Hparse Hrun.
  destruct (docopt_parsed _ _ _ _ _ Hparse) as (Hkeys & Hdbg & Hnc).
  split; [|exact (docopt_call _ _ _ _ _ Hparse)].
  rewrite (main_after_parse _ _ _ _ _ _ _ Hparse Hdbg). simpl truthy.
  unfold try_finally, try_except.
  rewrite run_present by exact Hkeys.
  rewrite call_run_pipeline_eq. simpl arguments. rewrite Hrun.
  rewrite cleanup_eq. simpl arguments. rewrite Hnc. simpl truthy.
  unfold cleanup_events. now destruct (cl_no_cleanup c).
Qed.

Lemma successful_run_witness :
  exists call,
    main Sample.pkg (Sample.os_with false) Sample.succeeds (docopt Sample.cl) =
    Ok tt
      {| arguments :=
           arguments (final (parse_arguments Sample.pkg (Sample.os_with false)
                               (start (docopt Sample.cl))));
         trace := [InstallLogs "INFO"; RunPipeline call;
                   LogInfo "Cleaning up temporary files."; CleanupTempFiles] |} /\
    bedfiles call = VList ["a.bed"; "b.bed"] /\
    outfile call = VStr "/home/user/a__b.vcf.gz" /\
    threads call = VInt 6.
Proof.
  pose (r := parse_arguments Sample.pkg (Sample.os_with false)
               (start (docopt Sample.cl))).
  assert (E : r = Ok (arguments (final r)) (final r)) by (vm_compute; reflexivity).
  destruct (successful_run Sample.pkg (Sample.os_with false) Sample.succeeds
              Sample.cl (arguments (final r)) (final r) E eq_refl)
    as (Hmain & Hbeds & _).
  exists (call_of (arguments (final r))).
  split; [exact Hmain|]. split; [exact Hbeds|].
  split; vm_compute; reflexivity.
Defined.

(** X7. A user interrupt during the pipeline is caught by main, which logs
    the one warning 'User stopped the program. Cleanup and exit.', runs the
    finally clause and leaves through sys.exit(); the pipeline was called
    once. *)
Theorem interrupted_run pkg o run_pipeline c d' s1 :
  parse_arguments pkg o (start (docopt c)) = Ok d' s1 ->
  run_pipeline (call_of d') = Some KeyboardInterrupt ->
  main pkg o run_pipeline (docopt c) =
  Raise (SystemExit None)
    {| arguments := d';
       trace := [InstallLogs (if cl_debug c then "DEBUG" else "INFO");
                 RunPipeline (call_of d');
                 LogWarning "User stopped the program. Cleanup and exit."]
                  ++ cleanup_events (cl_no_cleanup c) |}.
Proof.
  intros Hparse Hrun.
  destruct (docopt_parsed _ _ _ _ _ Hparse) as (Hkeys & Hdbg & Hnc).
  rewrite (main_after_parse _ _ _ _ _ _ _ Hparse Hdbg). simpl truthy.
  unfold try_finally, try_except.
  rewrite run_present by exact Hkeys.
  rewrite call_run_pipeline_eq. simpl arguments. rewrite Hrun.
  simpl handlers. unfold bind, emit, sys_exit, raise.
  rewrite cleanup_eq. simpl arguments. rewrite Hnc. simpl truthy.
  unfold cleanup_events. now destruct (cl_no_cleanup c).
Qed.

Lemma interrupted_run_witness :
  exists call,
    raised (main Sample.pkg (Sample.os_with false) Sample.interrupted
              (docopt Sample.cl)) = Some (SystemExit None) /\
    trace (final (main Sample.pkg (Sample.os_with false) Sample.interrupted
                    (docopt Sample.cl))) =
    [InstallLogs "INFO"; RunPipeline call;
     LogWarning "User stopped the program. Cleanup and exit.";
     LogInfo "Cleaning up temporary files."; CleanupTempFiles].
Proof.
  pose (r := parse_arguments Sample.pkg (Sample.os_with false)
               (start (docopt Sample.cl))).
  assert (E : r = Ok (arguments (final r)) (final r)) by (vm_compute; reflexivity).
  exists (call_of (arguments (final r))).
  rewrite (interrupted_run Sample.pkg (Sample.os_with false) Sample.interrupted
             Sample.cl (arguments (final r)) (final r) E eq_refl).
  split; reflexivity.
Defined.

(** X8. Any other exception of the pipeline is not caught: main lets it
    through as it is, after the finally clause has run, and logs no
    warning about it. *)
Theorem other_errors_propagate pkg o run_pipeline c d' s1 e :
  parse_arguments pkg o (start (docopt c)) = Ok d' s1 ->
  run_pipeline (call_of d') = Some e ->
  e <> KeyboardInterrupt ->
  (forall returncode cmd, e <> CalledProcessError returncode cmd) ->
  main pkg o run_pipeline (docopt c) =
  Raise e
    {| arguments := d';
       trace := [InstallLogs (if cl_debug c then "DEBUG" else "INFO");
                 RunPipeline (call_of d')]
                  ++ cleanup_events (cl_no_cleanup c) |}.
Proof.
  intros Hparse Hrun Hki Hcpe.
  destruct (docopt_parsed _ _ _ _ _ Hparse) as (Hkeys & Hdbg & Hnc).
  rewrite (main_after_parse _ _ _ _ _ _ _ Hparse Hdbg). simpl truthy.
  unfold try_finally, try_except.
  rewrite run_present by exact Hkeys.
  rewrite call_run_pipeline_eq. simpl arguments. rewrite Hrun.
  assert (Hnone : handlers e = None).
  { destruct e; try reflexivity; [contradiction | now destruct (Hcpe returncode cmd)]. }
  rewrite Hnone, cleanup_eq. simpl arguments. rewrite Hnc. simpl truthy.
  unfold cleanup_events. now destruct (cl_no_cleanup c).
Qed.

Lemma other_errors_propagate_witness :
  exists call,
    raised (main Sample.pkg (Sample.os_with false) Sample.breaks
              (docopt Sample.cl)) = Some (OtherError "OSError") /\
    trace (final (main Sample.pkg (Sample.os_with false) Sample.breaks
                    (docopt Sample.cl))) =
    [InstallLogs "INFO"; RunPipeline call;
     LogInfo "Cleaning up temporary files."; CleanupTempFiles].
Proof.
  pose (r := parse_arguments Sample.pkg (Sample.os_with false)
               (start (docopt Sample.cl))).
  assert (E : r = Ok (arguments (final r)) (final r)) by (vm_compute; reflexivity).
  exists (call_of (arguments (final r))).
  rewrite (other_errors_propagate Sample.pkg (Sample.os_with false) Sample.breaks
             Sample.cl (arguments (final r)) (final r) (OtherError "OSError")
             E eq_refl ltac:(discriminate) ltac:(discriminate)).
  split; reflexivity.
Defined.

(** ** What main leaves of the mapping *)

Lemma cleanup_keeps s : arguments (final (cleanup s)) = arguments s.
Proof.
  rewrite cleanup_eq. destruct (arguments s !! "--no-cleanup") as [v|]; [|reflexivity].
  now destruct (truthy v).
Qed.

(** X9. parse_arguments assigns to '--threads', '--out' and the six tool
    paths only: every other entry (the inputs, the flags) has its old value
    afterwards, however parse_arguments ends, and no entry is ever removed.
    main changes nothing more of the mapping. *)
Theorem mapping_frame pkg o run_pipeline d :
  let after := arguments (final (parse_arguments pkg o (start d))) in
  (forall k,
      k ∉ ["--threads"; "--out"; "--path-to-bcftools"; "--path-to-tabix";
           "--path-to-bgzip"; "--path-to-gatk3"; "--path-to-java";
           "--path-to-reference-fasta"] ->
      after !! k = d !! k) /\
  (forall k, is_Some (d !! k) -> is_Some (after !! k)) /\
  arguments (final (main pkg o run_pipeline d)) = after.
Proof.
  intros after. destruct (touches_parse_arguments pkg o (start d)) as [Hframe Hkeep].
  split; [exact Hframe|]. split; [exact Hkeep|].
  subst after. unfold main, main_body.
  unfold bind at 1.
  destruct (parse_arguments pkg o (start d)) as [d' s1|e s1]; [|reflexivity].
  unfold bind at 1. unfold getitem.
  destruct (arguments s1 !! "--debug") as [dbg|]; [|reflexivity].
  unfold bind, emit. rewrite try_finally_final, cleanup_keeps.
  destruct (guarded_run_appends run_pipeline
              (log (InstallLogs (if truthy dbg then "DEBUG" else "INFO")) s1))
    as (evs & [Ha _] & _).
  exact Ha.
Qed.

Lemma mapping_frame_witness :
  arguments (final (main Sample.pkg (Sample.os_with false) Sample.fails
                      (docopt Sample.cl))) !! "--in"
  = Some (VList ["a.bed"; "b.bed"]).
Proof.
  destruct (mapping_frame Sample.pkg (Sample.os_with false) Sample.fails
              (docopt Sample.cl)) as (Hframe & _ & Hmain).
  rewrite Hmain. rewrite Hframe by not_in_list. reflexivity.
Defined.

(** ** The derived file name *)

Lemma has_sep_app (a b : string) :
  Path.has_sep (a +:+ b) = Path.has_sep a || Path.has_sep b.
Proof.
  induction a as [|c a IH]; [reflexivity|].
  rewrite sapp_cons. simpl. now destruct (Ascii.eqb c Path.sep).
Qed.

Lemma basename_no_sep (name : string) :
  Path.has_sep name = false -> Path.basename name = name.
Proof. destruct name as [|c name]; [reflexivity|]. simpl. now intros ->. Qed.

Lemma basename_after_sep (dir name : string) :
  Path.has_sep name = false -> Path.basename (dir +:+ "/" +:+ name) = name.
Proof.
  intros H. induction dir as [|c dir IH].
  - change ("" +:+ "/" +:+ name) with (String "/" name).
    simpl. now apply basename_no_sep.
  - rewrite sapp_cons.
    assert (Hs : Path.has_sep (String c (dir +:+ "/" +:+ name)) = true).
    { simpl. destruct (Ascii.eqb c Path.sep); [reflexivity|].
      rewrite has_sep_app. change ("/" +:+ name) with (String "/" name).
      simpl. apply orb_true_r. }
    change (Path.basename (String c (dir +:+ "/" +:+ name)))
      with (if Path.has_sep (String c (dir +:+ "/" +:+ name))
            then Path.basename (dir +:+ "/" +:+ name)
            else String c (dir +:+ "/" +:+ name)).
    now rewrite Hs.
Qed.

Lemma basename_has_no_sep (p : string) : Path.has_sep (Path.basename p) = false.
Proof.
  induction p as [|c p IH]; [reflexivity|].
  change (Path.basename (String c p))
    with (if Path.has_sep (String c p) then Path.basename p else String c p).
  destruct (Path.has_sep (String c p)) eqn:E; [exact IH | exact E].
Qed.

(** X10. Only the last component of an input path counts: whatever
    directory an input lies in, it contributes the same to the derived
    name, so inputs of the same name in different directories give the
    same output name. *)
Theorem directories_dropped (inputs : list (string * string)) :
  (forall dn, dn ∈ inputs -> Path.has_sep (snd dn) = false) ->
  derived_filename (map (fun dn => fst dn +:+ "/" +:+ snd dn) inputs) =
  derived_filename (map snd inputs).
Proof.
  intros H. unfold derived_filename. f_equal. rewrite !map_map.
  apply map_ext_in. intros dn Hin.
  assert (Hno : Path.has_sep (snd dn) = false)
    by (apply H; now apply list_elem_of_In).
  now rewrite (basename_after_sep _ _ Hno), (basename_no_sep _ Hno).
Qed.

Lemma directories_dropped_witness :
  derived_filename ["/data/run1/a.bed"; "/data/run2/a.bed"] =
  derived_filename ["a.bed"; "a.bed"].
Proof.
  apply (directories_dropped [("/data/run1", "a.bed"); ("/data/run2", "a.bed")]).
  intros dn Hin.
  repeat (apply elem_of_cons in Hin as [->|Hin]; [reflexivity|]).
  now apply elem_of_nil in Hin.
Defined.

Lemma replace_scan_no_sep (old : string) (skip : nat) (s : string) :
  Path.has_sep s = false -> Path.has_sep (Str.replace_scan old "" skip s) = false.
Proof.
  revert skip. induction s as [|c s IH]; intros skip H; [reflexivity|].
  simpl in H. destruct (Ascii.eqb c Path.sep) eqn:Ec; [discriminate|].
  rewrite replace_scan_cons. destruct skip as [|k]; [|now apply IH].
  destruct (String.prefix old (String c s)).
  - change ("" +:+ Str.replace_scan old "" (Nat.pred (String.length old)) s)
      with (Str.replace_scan old "" (Nat.pred (String.length old)) s).
    now apply IH.
  - simpl. rewrite Ec. now apply IH.
Qed.

Lemma concat_no_sep (sep : string) (l : list string) :
  Path.has_sep sep = false ->
  (forall x, x ∈ l -> Path.has_sep x = false) ->
  Path.has_sep (String.concat sep l) = false.
Proof.
  intros Hsep. induction l as [|x l IH]; intros H; [reflexivity|].
  destruct l as [|y l].
  - simpl. apply H. left.
  - change (String.concat sep (x :: y :: l))
      with (x +:+ sep +:+ String.concat sep (y :: l)).
    rewrite !has_sep_app, Hsep, (H x) by left. simpl.
    apply IH. intros z Hz. apply H. now right.
Qed.

Lemma derived_filename_no_sep (beds : list string) :
  Path.has_sep (derived_filename beds) = false.
Proof.
  unfold derived_filename, Str.join. apply concat_no_sep; [reflexivity|].
  intros x (bed & -> & _)%list_elem_of_fmap.
  apply replace_scan_no_sep, basename_has_no_sep.
Qed.

Lemma startswith_sep (b : string) :
  Path.has_sep b = false -> Str.startswith b "/" = false.
Proof.
  destruct b as [|c b]; [reflexivity|]. intros H. unfold Str.startswith.
  rewrite prefix_cons. destruct (ascii_dec "/" c) as [<-|]; [|reflexivity].
  simpl in H. discriminate H.
Qed.

(** X11. The derived name never contains a '/', so with no --out the
    output lies directly in the working directory: the path is the working
    directory, a '/' unless it is empty or ends in one, and the name. *)
Theorem derived_name_in_cwd (cwd : string) (beds : list string) :
  Path.has_sep (derived_filename beds) = false /\
  Path.join cwd (derived_filename beds) =
  (if String.eqb cwd "" || Str.endswith cwd "/" then cwd else cwd +:+ "/")
    +:+ derived_filename beds /\
  Path.basename (Path.join cwd (derived_filename beds)) = derived_filename beds.
Proof.
  pose proof (derived_filename_no_sep beds) as Hno.
  assert (Hjoin : Path.join cwd (derived_filename beds) =
                  (if String.eqb cwd "" || Str.endswith cwd "/"
                   then cwd else cwd +:+ "/") +:+ derived_filename beds).
  { unfold Path.join. rewrite (startswith_sep _ Hno).
    destruct (String.eqb cwd "" || Str.endswith cwd "/"); [reflexivity|].
    now rewrite sapp_assoc. }
  split; [exact Hno|]. split; [exact Hjoin|]. rewrite Hjoin.
  destruct (String.eqb_spec cwd "") as [->|Hne]; simpl.
  - now apply basename_no_sep.
  - destruct (Str.endswith cwd "/") eqn:E.
    + apply endswith_split in E as [q ->]. rewrite sapp_assoc.
      now apply basename_after_sep.
    + rewrite sapp_assoc. now apply basename_after_sep.
Qed.

(** ** What parse_arguments writes *)

Lemma quiet_ret {A} (a : A) : quiet (ret a).
Proof. intros s. split; [reflexivity | discriminate]. Qed.

Lemma quiet_raise {A} (e : exn) :
  (forall code, e <> SystemExit code) -> quiet (@raise A e).
Proof. intros H s. split; [reflexivity|]. intros code [= ->]. now apply (H code). Qed.

Lemma quiet_getitem k : quiet (getitem k).
Proof.
  intros s. unfold getitem.
  destruct (arguments s !! k); split; try reflexivity; discriminate.
Qed.

Lemma quiet_setitem k v : quiet (setitem k v).
Proof. intros s. split; [reflexivity | discriminate]. Qed.

Lemma quiet_bind {A B} (m : M A) (k : A -> M B) :
  quiet m -> (forall a, quiet (k a)) -> quiet (bind m k).
Proof.
  intros Hm Hk s. unfold bind. specialize (Hm s).
  destruct (m s) as [a s1|e s1]; simpl in Hm; [|exact Hm].
  destruct Hm as [Ht _]. destruct (Hk a s1) as [Ht' Hr].
  split; [now rewrite Ht', Ht | exact Hr].
Qed.

Ltac hush :=
  repeat first
    [ apply quiet_ret | apply quiet_getitem | apply quiet_setitem
    | apply quiet_raise; discriminate
    | apply quiet_bind; [|intros ?]
    | match goal with
      | |- quiet (if ?b then _ else _) => destruct b
      | |- quiet (match ?x with _ => _ end) => destruct x
      end ].

Lemma quiet_after_version o : quiet (set_threads ;; default_out o ;; add_suffixes).
Proof.
  unfold set_threads, default_out, add_suffixes, py_int, iterate, endswith, add_str.
  hush.
Qed.

Lemma prepare_outcome pkg o s :
  (truthy (default VNone (arguments s !! "--version")) = true /\
   prepare pkg o s =
   Raise (SystemExit None) (log (Print (version_message pkg)) s)) \/
  (trace (final (prepare pkg o s)) = trace s /\
   forall code, raised (prepare pkg o s) <> Some (SystemExit code)).
Proof.
  pose proof (check_version_eq pkg s) as Hc. unfold prepare.
  destruct (arguments s !! "--version") as [v|]; simpl.
  - destruct (truthy v).
    + left. split; [reflexivity|]. now apply bind_step_Raise.
    + right. rewrite (bind_step_Ok _ _ _ _ _ Hc).
      apply (quiet_after_version o s).
  - right. rewrite (bind_step_Raise _ _ _ _ _ Hc).
    split; [reflexivity | discriminate].
Qed.

Lemma tools_outcome o l s :
  (raised (for_each l (resolve_tool o) s) = Some (SystemExit None) /\
   exists t, t ∈ l /\
             trace (final (for_each l (resolve_tool o) s)) =
             trace s ++ [Print (missing_message (parameter_of t) (env_varname_of t))]) \/
  (trace (final (for_each l (resolve_tool o) s)) = trace s /\
   forall code, raised (for_each l (resolve_tool o) s) <> Some (SystemExit code)).
Proof.
  revert s. induction l as [|x l IH]; intros s.
  - right. split; [reflexivity | discriminate].
  - simpl. unfold bind at 1 2 3 4. rewrite resolve_tool_eq.
    destruct (arguments s !! parameter_of x) as [v|].
    + destruct (truthy v).
      * destruct (IH s) as [(Hr & t & Ht & Htr)|H]; [left | now right].
        split; [exact Hr|]. exists t. split; [now right | exact Htr].
      * destruct (environ o !! env_varname_of x) as [p|].
        -- destruct (IH (set_arg (parameter_of x) (VStr p) s))
             as [(Hr & t & Ht & Htr)|H]; [left | now right].
           split; [exact Hr|]. exists t. split; [now right | exact Htr].
        -- left. split; [reflexivity|]. exists x. split; [left | reflexivity].
    + right. split; [reflexivity | discriminate].
Qed.

(** X12. parse_arguments writes at most one message, and only on its way
    out through sys.exit(): the version message, the message about the one
    missing tool, or the warning about the existing output file; the last
    only when the key '--force' is not in the mapping and the file at the
    resolved path exists. When it returns or raises any other exception,
    nothing has been written. *)
Theorem parse_arguments_output pkg o d :
  let r := parse_arguments pkg o (start d) in
  match raised r with
  | Some (SystemExit _) =>
      trace (final r) = [Print (version_message pkg)] \/
      (exists t, t ∈ varnames /\
                 trace (final r) =
                 [Print (missing_message (parameter_of t) (env_varname_of t))]) \/
      (exists out, d !! "--force" = None /\ isfile o out = true /\
                   arguments (final r) !! "--out" = Some (VStr out) /\
                   trace (final r) = [LogWarning (exists_message out)])
  | _ => trace (final r) = []
  end.
Proof.
  intros r. subst r. rewrite parse_arguments_steps.
  destruct (prepare_outcome pkg o (start d)) as [[_ ->]|[Ht1 Hr1]].
  { simpl. now left. }
  destruct (prepare pkg o (start d)) as [[] s1|e1 s1] eqn:H1; simpl in Ht1, Hr1.
  2:{ simpl. destruct e1; try exact Ht1. now destruct (Hr1 code). }
  destruct (tools_outcome o varnames s1) as [(Hr2 & t & Ht & Htr)|[Ht2 Hr2]];
    fold (resolve_tools o) in *.
  { destruct (resolve_tools o s1) as [[] s2|e2 s2]; [discriminate|].
    simpl in Hr2, Htr. injection Hr2 as ->. simpl. right. left.
    exists t. split; [exact Ht|]. now rewrite Htr, Ht1. }
  destruct (resolve_tools o s1) as [[] s2|e2 s2] eqn:H2; simpl in Ht2, Hr2.
  2:{ simpl. destruct e2; try (now rewrite Ht2, Ht1). now destruct (Hr2 code). }
  assert (Hnil : trace s2 = []) by now rewrite Ht2, Ht1.
  pose proof (force_kept _ _ _ _ _ H1 H2) as Hforce. simpl in Hforce.
  rewrite overwrite_guard_eq, Hforce.
  destruct (d !! "--force") as [f|] eqn:Hf; [exact Hnil|].
  destruct (arguments s2 !! "--out") as [[|b|n|p|l]|] eqn:Hout; try exact Hnil.
  destruct (isfile o p) eqn:Hfile; [|exact Hnil].
  simpl. right. right. exists p. repeat split; try assumption.
  now rewrite Hnil.
Qed.
